(** * 404BlockerDemo: the IP404Tracker shadow-ban engine

    A shallow embedding of [IP404Tracker] (404blocker.go and its later
    revision with rolling bans) and the properties of its ban policy.

    Modelling choices.
    - [time.Time] is an instant on a linear clock, a [Z] counting
      nanoseconds; [time.Duration] is a signed [Z] of nanoseconds, an int64
      in Go, whose unary minus is [negDuration].
      [After], [Before] and [Add] are the three operations of package
      [time] the tracker uses.
    - Every method that calls [time.Now()] takes that reading as its
      argument [now]; a caller that makes several calls supplies one reading
      per call. The methods read the clock before they take the lock, so
      calls that run at the same time need not take effect in the order of
      their readings: nothing relates the readings of different calls unless
      a statement says so.
    - The four Go maps are [gmap string _]; reading a missing key gives the
      zero value, as in Go ([default]).
    - Methods mutate the receiver: they are computations in a state monad
      over the tracker, so that "leaves the tracker unchanged" is a
      statement about the returned state.
    - The mutex serialises the methods; the model is the sequential
      behaviour of one method call at a time, a history being the calls in
      the order they take the lock. The two background goroutines
      started by the constructor are not part of the constructed value; the
      sweep they run is [cleanup]. *)

From stdpp Require Import base tactics option list strings gmap fin_maps sorting.
From Stdlib Require Import ZArith Lia.

Local Open Scope Z_scope.

(** ** Package time, as far as the tracker uses it *)

Definition After (t u : Z) : bool := bool_decide (u < t).
Definition Before (t u : Z) : bool := bool_decide (t < u).
Definition Add (t d : Z) : Z := t + d.

(** ** Go's [int]: 64-bit two's complement *)

Definition int_min : Z := - 2 ^ 63.
Definition int_max : Z := 2 ^ 63 - 1.
Definition int_wrap (z : Z) : Z := (z + 2 ^ 63) mod 2 ^ 64 - 2 ^ 63.

(** Go's unary minus on a [time.Duration], an int64 with the range of [int]:
    the negation, except that the most negative Duration has no negation in
    range and is its own ([-d] wraps around to [d]). *)
Definition negDuration (d : Z) : Z :=
  if decide (d = int_min) then int_min else - d.

(** ** The tracker *)

Record IP404Tracker : Type := mkTracker {
  counts        : gmap string (list Z);
  bannedUntil   : gmap string Z;
  whitelist     : gmap string bool;
  bannedRequest : gmap string Z;
  threshold     : Z;
  window        : Z;
  banDuration   : Z
}.

Definition set_counts (f : gmap string (list Z) → gmap string (list Z))
    (t : IP404Tracker) : IP404Tracker :=
  mkTracker (f (counts t)) (bannedUntil t) (whitelist t) (bannedRequest t)
            (threshold t) (window t) (banDuration t).

Definition set_bannedUntil (f : gmap string Z → gmap string Z)
    (t : IP404Tracker) : IP404Tracker :=
  mkTracker (counts t) (f (bannedUntil t)) (whitelist t) (bannedRequest t)
            (threshold t) (window t) (banDuration t).

Definition set_whitelist (f : gmap string bool → gmap string bool)
    (t : IP404Tracker) : IP404Tracker :=
  mkTracker (counts t) (bannedUntil t) (f (whitelist t)) (bannedRequest t)
            (threshold t) (window t) (banDuration t).

Definition set_bannedRequest (f : gmap string Z → gmap string Z)
    (t : IP404Tracker) : IP404Tracker :=
  mkTracker (counts t) (bannedUntil t) (whitelist t) (f (bannedRequest t))
            (threshold t) (window t) (banDuration t).

(** ** Methods as state computations over the receiver *)

Definition State (A : Type) : Type := IP404Tracker → A * IP404Tracker.

#[export] Instance State_ret : MRet State := λ A a t, (a, t).
#[export] Instance State_bind : MBind State :=
  λ A B f m t, let '(a, t') := m t in f a t'.

Definition gets {A : Type} (f : IP404Tracker → A) : State A := λ t, (f t, t).
Definition modify (f : IP404Tracker → IP404Tracker) : State unit :=
  λ t, (tt, f t).

(** The loop shared by [Record404] and [cleanup]:
    [for _, ts := range timestamps { if ts.After(cutoff) { out = append(out, ts) } }]
    starting from the nil slice. *)
Definition keepAfter (cutoff : Z) (timestamps : list Z) : list Z :=
  foldl (λ out ts, if After ts cutoff then out ++ [ts] else out) [] timestamps.

(** [banTime, exists := m[ip]; exists && banTime.After(now)] *)
Definition activeBan (m : gmap string Z) (ip : string) (now : Z) : bool :=
  match m !! ip with
  | Some banTime => After banTime now
  | None => false
  end.

Definition hardcodedWhitelist : list string := ["1.1.1.1"%string].

Definition initializeWhitelist : State unit :=
  modify (set_whitelist (λ w,
    foldl (λ w ip, <[ip := true]> w) w hardcodedWhitelist)).

Definition NewIP404Tracker (threshold window banDuration : Z) : IP404Tracker :=
  let tracker := mkTracker ∅ ∅ ∅ ∅ threshold window banDuration in
  snd (initializeWhitelist tracker).

Definition AddToWhitelist (ip : string) : State unit :=
  modify (set_whitelist (<[ip := true]>)).

Definition RemoveFromWhitelist (ip : string) : State unit :=
  modify (set_whitelist (delete ip)).

Definition IsWhitelisted (ip : string) : State bool :=
  gets (λ t, default false (whitelist t !! ip)).

Definition cleanup (now : Z) : State unit :=
  window ← gets window;
  let windowCutoff := Add now (negDuration window) in
  modify (set_counts (λ c,
    map_fold (λ ip timestamps c,
      let validTimestamps := keepAfter windowCutoff timestamps in
      if decide (length validTimestamps = 0%nat)
      then delete ip c
      else <[ip := validTimestamps]> c) c c));;
  modify (set_bannedUntil (λ b,
    map_fold (λ ip bannedUntil b,
      if Before bannedUntil now then delete ip b else b) b b)).

Definition Record404 (ip : string) (now : Z) : State bool :=
  wl ← IsWhitelisted ip;
  if wl : bool then mret false else
  window ← gets window;
  let windowStart := Add now (negDuration window) in
  banned ← gets (λ t, activeBan (bannedUntil t) ip now);
  if banned : bool then mret true else
  timestamps ← gets (λ t, default [] (counts t !! ip));
  let recentTimestamps := keepAfter windowStart timestamps ++ [now] in
  modify (set_counts (<[ip := recentTimestamps]>));;
  threshold ← gets threshold;
  if bool_decide (threshold < Z.of_nat (length recentTimestamps)) then
    banDuration ← gets banDuration;
    modify (set_bannedUntil (<[ip := Add now banDuration]>));;
    mret true
  else mret false.

Definition IsBanned (ip : string) (now : Z) : State bool :=
  wl ← IsWhitelisted ip;
  if wl : bool then mret false else
  gets (λ t, activeBan (bannedUntil t) ip now).

Definition UnbanIP (ip : string) : State unit :=
  modify (set_bannedUntil (delete ip)).

Definition GetBannedIPs (now : Z) : State (gmap string Z) :=
  gets (λ t,
    map_fold (λ ip banTime result,
      if After banTime now then <[ip := banTime]> result else result)
      ∅ (bannedUntil t)).

Definition BannedRequestCounter (clientIP : string) : State unit :=
  modify (set_bannedRequest (λ m,
    <[clientIP := int_wrap (default 0 (m !! clientIP) + 1)]> m)).

Definition ExtendBan (ip : string) (now : Z) : State unit :=
  wl ← IsWhitelisted ip;
  if wl : bool then mret tt else
  banDuration ← gets banDuration;
  let newBanTime := Add now banDuration in
  modify (set_bannedUntil (<[ip := newBanTime]>)).

(** ** The Gin middleware

    The part of [gin.Context] the middleware touches: the response status
    and the abort flag. [next] is the rest of the handler chain ([c.Next()]),
    which may itself use the tracker. *)

Record Context : Type := mkContext { status : Z; aborted : bool }.

Definition Status (code : Z) (c : Context) : Context := mkContext code (aborted c).
Definition Abort (c : Context) : Context := mkContext (status c) true.

(** The three clock readings of one pass through the middleware: the one in
    [IsBanned], the one in [ExtendBan], the one in [Record404]. *)
Record Clock : Type := mkClock { atCheck : Z; atExtend : Z; atRecord : Z }.

(** [Middleware] of the revision with rolling bans. *)
Definition Middleware (next : Context → State Context) (clientIP : string)
    (clk : Clock) (c : Context) : State Context :=
  banned ← IsBanned clientIP (atCheck clk);
  if banned : bool then
    ExtendBan clientIP (atExtend clk);;
    BannedRequestCounter clientIP;;
    mret (Abort (Status 404 c))
  else
    c ← next c;
    if decide (status c = 404) then
      _ ← Record404 clientIP (atRecord clk);
      mret c
    else mret c.

(** [Middleware] of 404blocker.go: the gate neither extends nor counts. *)
Definition Middleware0 (next : Context → State Context) (clientIP : string)
    (clk : Clock) (c : Context) : State Context :=
  banned ← IsBanned clientIP (atCheck clk);
  if banned : bool then
    mret (Abort (Status 404 c))
  else
    c ← next c;
    if decide (status c = 404) then
      _ ← Record404 clientIP (atRecord clk);
      mret c
    else mret c.

(** Successive offenses of one identifier, one clock reading per call. *)
Fixpoint reportAll (ip : string) (times : list Z) : State (list bool) :=
  match times with
  | [] => mret []
  | now :: rest =>
      b ← Record404 ip now;
      bs ← reportAll ip rest;
      mret (b :: bs)
  end.

(** Repeated ban checks. *)
Fixpoint checkAll (ip : string) (times : list Z) : State (list bool) :=
  match times with
  | [] => mret []
  | now :: rest =>
      b ← IsBanned ip now;
      bs ← checkAll ip rest;
      mret (b :: bs)
  end.

(** Successive requests of one identifier through the middleware, each with
    its own clock readings and a fresh context [c]. *)
Fixpoint gateAll (next : Context → State Context) (ip : string)
    (clks : list Clock) (c : Context) : State (list Context) :=
  match clks with
  | [] => mret []
  | clk :: rest =>
      r ← Middleware next ip clk c;
      rs ← gateAll next ip rest c;
      mret (r :: rs)
  end.

(** The identifier keeps probing: each request is checked before the expiry
    in force, [deadline] for the first and the previous request's extension
    plus [banDuration] for the others. *)
Fixpoint keepsProbing (banDuration deadline : Z) (clks : list Clock) : bool :=
  match clks with
  | [] => true
  | clk :: rest =>
      bool_decide (atCheck clk < deadline)
      && keepsProbing banDuration (atExtend clk + banDuration) rest
  end.

(** Earlier stamps all lie inside the window that trails each later one. *)
Fixpoint allInWindow (w : Z) (l : list Z) : bool :=
  match l with
  | [] => true
  | a :: rest => forallb (λ b, bool_decide (b - w < a)) rest && allInWindow w rest
  end.

(** ** Vocabulary of the statements *)

(** The timestamps stored for [ip] ([t.counts[ip]], nil when absent). *)
Definition offenses (t : IP404Tracker) (ip : string) : list Z :=
  default [] (counts t !! ip).

(** Where the window that trails [now] starts ([now.Add(-t.window)]): it is
    [now - window], unless the window is the most negative Duration. *)
Definition windowStart (t : IP404Tracker) (now : Z) : Z :=
  Add now (negDuration (window t)).

(** The in-window offenses of [ip] at [now], the new event included: the
    stored stamps strictly after the start of the window, then [now]. *)
Definition recentAt (t : IP404Tracker) (ip : string) (now : Z) : list Z :=
  filter (λ ts, windowStart t now < ts) (offenses t ip) ++ [now].

(** Unfolds the monad so that a method applied to a tracker computes. *)
Ltac run_state :=
  cbv [mbind mret State_bind State_ret gets modify IsWhitelisted].

(** ** The rest of the tracker's surface *)

(** The order in which a [range] loop over the whitelist map meets its
    entries. Go leaves it open and changes it from one loop to the next, so
    it is an argument of the loop: any listing of the entries of the map,
    each once. *)
Record RangeOrder : Type := mkRangeOrder {
  entriesOf : gmap string bool → list (string * bool);
  entriesOf_perm : ∀ m, entriesOf m ≡ₚ map_to_list m
}.

(** Two such orders: the one the map is stored in, and its reverse. *)
Definition storedOrder : RangeOrder :=
  mkRangeOrder map_to_list (λ m, Permutation_refl (map_to_list m)).
Definition reversedOrder : RangeOrder :=
  mkRangeOrder (λ m, reverse (map_to_list m))
               (λ m, reverse_Permutation (map_to_list m)).

(** [GetWhitelist]: the keys of the whitelist map, appended one by one in the
    order the loop meets them. *)
Definition GetWhitelist (order : RangeOrder) : State (list string) :=
  gets (λ t,
    foldl (λ ips entry, ips ++ [entry.1]) [] (entriesOf order (whitelist t))).

(** Successive requests of one identifier through the middleware of
    404blocker.go. *)
Fixpoint gateAll0 (next : Context → State Context) (ip : string)
    (clks : list Clock) (c : Context) : State (list Context) :=
  match clks with
  | [] => mret []
  | clk :: rest =>
      r ← Middleware0 next ip clk c;
      rs ← gateAll0 next ip rest c;
      mret (r :: rs)
  end.

(** The context of a request no handler has written to yet: Gin's writer
    starts at status 200. *)
Definition freshContext : Context := mkContext 200 false.

(** A handler chain that answers [r] and does not use the tracker, as the
    routes of [main] do. *)
Definition answer (r : Context) : Context → State Context := λ _, mret r.

(** ** Histories of calls

    One call of a method, with the clock reading it makes; a request is one
    pass through a middleware in front of a chain that answers [r]. *)
Inductive Call : Type :=
  | CallAddToWhitelist (ip : string)
  | CallRemoveFromWhitelist (ip : string)
  | CallIsWhitelisted (ip : string)
  | CallGetWhitelist (order : RangeOrder)
  | CallRecord404 (ip : string) (now : Z)
  | CallIsBanned (ip : string) (now : Z)
  | CallUnbanIP (ip : string)
  | CallGetBannedIPs (now : Z)
  | CallBannedRequestCounter (ip : string)
  | CallExtendBan (ip : string) (now : Z)
  | CallCleanup (now : Z)
  | CallRequest (r : Context) (ip : string) (clk : Clock)
  | CallRequest0 (r : Context) (ip : string) (clk : Clock).

(** The tracker after the call. *)
Definition exec (call : Call) (t : IP404Tracker) : IP404Tracker :=
  match call with
  | CallAddToWhitelist ip => snd (AddToWhitelist ip t)
  | CallRemoveFromWhitelist ip => snd (RemoveFromWhitelist ip t)
  | CallIsWhitelisted ip => snd (IsWhitelisted ip t)
  | CallGetWhitelist order => snd (GetWhitelist order t)
  | CallRecord404 ip now => snd (Record404 ip now t)
  | CallIsBanned ip now => snd (IsBanned ip now t)
  | CallUnbanIP ip => snd (UnbanIP ip t)
  | CallGetBannedIPs now => snd (GetBannedIPs now t)
  | CallBannedRequestCounter ip => snd (BannedRequestCounter ip t)
  | CallExtendBan ip now => snd (ExtendBan ip now t)
  | CallCleanup now => snd (cleanup now t)
  | CallRequest r ip clk => snd (Middleware (answer r) ip clk freshContext t)
  | CallRequest0 r ip clk => snd (Middleware0 (answer r) ip clk freshContext t)
  end.

Definition execAll (calls : list Call) (t : IP404Tracker) : IP404Tracker :=
  foldl (λ t call, exec call t) t calls.

(** The identifier a call is about; the sweeps and listings are about none. *)
Definition subject (call : Call) : option string :=
  match call with
  | CallAddToWhitelist ip | CallRemoveFromWhitelist ip | CallIsWhitelisted ip
  | CallRecord404 ip _ | CallIsBanned ip _ | CallUnbanIP ip
  | CallBannedRequestCounter ip | CallExtendBan ip _
  | CallRequest _ ip _ | CallRequest0 _ ip _ => Some ip
  | CallGetWhitelist _ | CallGetBannedIPs _ | CallCleanup _ => None
  end.


(** What every method keeps true of the maps: the whitelist holds [true]
    only, no stored offense window is empty, and the tallies are Go [int]s. *)
Definition wellFormed (t : IP404Tracker) : Prop :=
  (∀ ip b, whitelist t !! ip = Some b → b = true)
  ∧ (∀ ip l, counts t !! ip = Some l → l ≠ [])
  ∧ (∀ ip n, bannedRequest t !! ip = Some n → int_min ≤ n ≤ int_max).


(** All the tracker holds about one identifier. *)
Definition view (t : IP404Tracker) (ip : string)
    : option (list Z) * option Z * option bool * option Z :=
  (counts t !! ip, bannedUntil t !! ip, whitelist t !! ip, bannedRequest t !! ip).


(** What a call hands back to its caller. *)
Inductive Result : Type :=
  | Done
  | Answer (b : bool)
  | Listed (ips : list string)
  | Bans (m : gmap string Z)
  | Response (c : Context).

Definition result (call : Call) (t : IP404Tracker) : Result :=
  match call with
  | CallAddToWhitelist _ | CallRemoveFromWhitelist _ | CallUnbanIP _
  | CallBannedRequestCounter _ | CallExtendBan _ _ | CallCleanup _ => Done
  | CallIsWhitelisted ip => Answer (fst (IsWhitelisted ip t))
  | CallGetWhitelist order => Listed (fst (GetWhitelist order t))
  | CallRecord404 ip now => Answer (fst (Record404 ip now t))
  | CallIsBanned ip now => Answer (fst (IsBanned ip now t))
  | CallGetBannedIPs now => Bans (fst (GetBannedIPs now t))
  | CallRequest r ip clk => Response (fst (Middleware (answer r) ip clk freshContext t))
  | CallRequest0 r ip clk => Response (fst (Middleware0 (answer r) ip clk freshContext t))
  end.

(** The results of a history, call by call. *)
Fixpoint results (calls : list Call) (t : IP404Tracker) : list Result :=
  match calls with
  | [] => []
  | call :: rest => result call t :: results rest (exec call t)
  end.

(** The same call, but for the order in which a listing of the whitelist
    meets the entries; and the same result, but for the order of the list
    such a listing returns. *)
Definition sameCall (call1 call2 : Call) : Prop :=
  call1 = call2
  ∨ ∃ order1 order2,
      call1 = CallGetWhitelist order1 ∧ call2 = CallGetWhitelist order2.

Definition sameResult (r1 r2 : Result) : Prop :=
  r1 = r2 ∨ ∃ ips1 ips2, r1 = Listed ips1 ∧ r2 = Listed ips2 ∧ ips1 ≡ₚ ips2.

(** Every clock reading the call makes is [now] or later. *)
Definition notBefore (now : Z) (call : Call) : bool :=
  match call with
  | CallRecord404 _ at_ | CallIsBanned _ at_ | CallGetBannedIPs at_
  | CallExtendBan _ at_ | CallCleanup at_ => bool_decide (now ≤ at_)
  | CallRequest _ _ clk | CallRequest0 _ _ clk =>
      bool_decide (now ≤ atCheck clk) && bool_decide (now ≤ atExtend clk)
      && bool_decide (now ≤ atRecord clk)
  | _ => true
  end.

(** Two trackers that differ only in what a sweep at [now] may have removed:
    offenses that left the window by [now] and bans that ran out before
    [now]. *)
Definition agreeFrom (now : Z) (t1 t2 : IP404Tracker) : Prop :=
  whitelist t1 = whitelist t2
  ∧ bannedRequest t1 = bannedRequest t2
  ∧ threshold t1 = threshold t2
  ∧ window t1 = window t2
  ∧ banDuration t1 = banDuration t2
  ∧ (∀ ip, filter (λ ts, windowStart t1 now < ts) (offenses t1 ip)
           = filter (λ ts, windowStart t1 now < ts) (offenses t2 ip))
  ∧ (∀ ip e, now ≤ e →
       bannedUntil t1 !! ip = Some e ↔ bannedUntil t2 !! ip = Some e).


(** The latest clock reading once the call is made, [now] being the latest
    before it. *)
Definition latest (now : Z) (call : Call) : Z :=
  match call with
  | CallRecord404 _ at_ | CallIsBanned _ at_ | CallGetBannedIPs at_
  | CallExtendBan _ at_ | CallCleanup at_ => Z.max now at_
  | CallRequest _ _ clk | CallRequest0 _ _ clk =>
      Z.max now (Z.max (atCheck clk) (Z.max (atExtend clk) (atRecord clk)))
  | _ => now
  end.

(** The calls take effect in the order of their clock readings: no call of
    the history made a reading earlier than a reading of a call before it,
    [now] being the latest reading before the history. A clock that never
    goes back gives this for calls made one after the other. It does not for
    calls that run at the same time: each reads the clock before it takes
    the lock, and the one that read first may take the lock last. *)
Fixpoint readingsInCallOrder (now : Z) (calls : list Call) : bool :=
  match calls with
  | [] => true
  | call :: rest => notBefore now call && readingsInCallOrder (latest now call) rest
  end.

(** Offense windows in order of time and not ahead of [now]; no ban reaching
    further than one ban duration past [now]. *)
Definition chronological (now : Z) (t : IP404Tracker) : Prop :=
  (∀ ip l, counts t !! ip = Some l →
     StronglySorted Z.le l ∧ Forall (λ ts, ts ≤ now) l)
  ∧ (∀ ip e, bannedUntil t !! ip = Some e → e ≤ now + banDuration t).

(** * Properties *)

(** The README's first test: four misses in a row with threshold 3. *)
Example run_demo :
  fst (reportAll "10.0.0.1" [0; 1; 2; 3] (NewIP404Tracker 3 60 86400))
  = [false; false; false; true].
Proof. vm_compute. reflexivity. Qed.

(** A window of the most negative Duration is its own negation: the window
    then starts 2^63 nanoseconds before [now] and nothing is ever pruned, by
    an offense or by the sweep. *)
Example Record404_most_negative_window :
  let t := set_counts (<["10.0.0.1"%string := [0; 1; 2]]>)
             (NewIP404Tracker 3 int_min 86400) in
  fst (Record404 "10.0.0.1" 3 t) = true
  ∧ offenses (snd (Record404 "10.0.0.1" 3 t)) "10.0.0.1" = [0; 1; 2; 3]
  ∧ bannedUntil (snd (Record404 "10.0.0.1" 3 t)) !! "10.0.0.1"%string = Some 86403.
Proof. repeat split; reflexivity. Qed.

Example cleanup_most_negative_window :
  let t := set_counts (<["10.0.0.1"%string := [0; 50]]>)
             (NewIP404Tracker 3 int_min 86400) in
  offenses (snd (cleanup 100 t)) "10.0.0.1" = [0; 50].
Proof. reflexivity. Qed.

(** ** The clock comparisons *)

Lemma After_true (t u : Z) : After t u = true ↔ u < t.
Proof. unfold After. apply bool_decide_eq_true. Qed.

Lemma After_false (t u : Z) : After t u = false ↔ t ≤ u.
Proof. unfold After. rewrite bool_decide_eq_false. lia. Qed.

Lemma Before_true (t u : Z) : Before t u = true ↔ t < u.
Proof. unfold Before. apply bool_decide_eq_true. Qed.

Lemma int_wrap_in_range (z : Z) : int_min ≤ z ≤ int_max → int_wrap z = z.
Proof.
  unfold int_min, int_max, int_wrap. intros Hz.
  rewrite Z.mod_small; lia.
Qed.

(** On the Durations Go has, [negDuration] is negation modulo 2^64. *)
Lemma negDuration_int64 (d : Z) :
  int_min ≤ d ≤ int_max → negDuration d = int_wrap (- d).
Proof.
  unfold negDuration, int_min, int_max, int_wrap. intros Hd. case_decide as E.
  - rewrite E. reflexivity.
  - replace (- d + 2 ^ 63) with (2 ^ 63 - d) by lia.
    rewrite Z.mod_small; lia.
Qed.

Lemma windowStart_minus (t : IP404Tracker) (now : Z) :
  window t ≠ int_min → windowStart t now = now - window t.
Proof.
  intros Hw. unfold windowStart, Add, negDuration.
  rewrite decide_False by done. lia.
Qed.

Lemma windowStart_le (t : IP404Tracker) (now : Z) :
  windowStart t now ≤ now - window t.
Proof.
  unfold windowStart, Add, negDuration. case_decide as E; [|lia].
  rewrite E. unfold int_min. lia.
Qed.

Lemma windowStart_shift (t : IP404Tracker) (now now' : Z) :
  windowStart t now' - windowStart t now = now' - now.
Proof. unfold windowStart, Add. lia. Qed.

Lemma windowStart_window (t1 t2 : IP404Tracker) (now : Z) :
  window t1 = window t2 → windowStart t1 now = windowStart t2 now.
Proof. unfold windowStart. by intros ->. Qed.

(** ** The pruning loop is a filter *)

Lemma keepAfter_acc (cutoff : Z) (l acc : list Z) :
  foldl (λ out ts, if After ts cutoff then out ++ [ts] else out) acc l
  = acc ++ filter (λ ts, cutoff < ts) l.
Proof.
  revert acc. induction l as [|ts l IH]; intros acc; simpl.
  - by rewrite app_nil_r.
  - rewrite IH. destruct (After ts cutoff) eqn:E.
    + apply After_true in E. rewrite filter_cons_True by done.
      by rewrite <- app_assoc.
    + apply After_false in E. rewrite filter_cons_False by lia. done.
Qed.

Lemma keepAfter_filter (cutoff : Z) (l : list Z) :
  keepAfter cutoff l = filter (λ ts, cutoff < ts) l.
Proof. unfold keepAfter. by rewrite keepAfter_acc. Qed.

Lemma filter_all_kept (cutoff : Z) (l : list Z) :
  Forall (λ ts, cutoff < ts) l → filter (λ ts, cutoff < ts) l = l.
Proof.
  induction 1 as [|ts l Hts _ IH]; [done|].
  rewrite filter_cons_True by done. by rewrite IH.
Qed.

(** Stamps younger than [window] at [now] are after the start of the
    window, whatever the window. *)
Lemma window_all_kept (t : IP404Tracker) (now : Z) (l : list Z) :
  Forall (λ ts, now - window t < ts) l →
  filter (λ ts, windowStart t now < ts) l = l.
Proof.
  intros Hl. apply filter_all_kept. eapply Forall_impl; [exact Hl|].
  intros ts. cbn. pose proof (windowStart_le t now). lia.
Qed.

(** ** The map loops, read back key by key *)

Section map_loops.
Context {V : Type}.

(** A loop over [m] that rewrites or deletes the entry it visits leaves at
    each key what [step] makes of that key's entry. *)
Lemma range_update_lookup (step : string → V → option V)
    (f : string → V → gmap string V → gmap string V)
    (m : gmap string V) (i : string) :
  (∀ k v acc, f k v acc =
     match step k v with Some v' => <[k := v']> acc | None => delete k acc end) →
  map_fold f m m !! i = m !! i ≫= step i.
Proof.
  intros Hf.
  cut (∀ m0 : gmap string V,
    map_fold f m0 m !! i
    = match m !! i with Some v => step i v | None => m0 !! i end).
  { intros H. rewrite H. by destruct (m !! i). }
  intros m0.
  apply (map_fold_weak_ind (λ r m', r !! i =
    match m' !! i with Some v => step i v | None => m0 !! i end)).
  - by rewrite lookup_empty.
  - intros k v m' r Hk IH. rewrite Hf. destruct (decide (k = i)) as [->|Hne].
    + rewrite lookup_insert_eq.
      destruct (step i v); [by rewrite lookup_insert_eq|by rewrite lookup_delete_eq].
    + rewrite (lookup_insert_ne m') by done. rewrite <- IH.
      destruct (step k v); [by rewrite lookup_insert_ne|by rewrite lookup_delete_ne].
Qed.

(** A loop over [m] that copies the entries passing [keep] into a fresh
    map. *)
Lemma range_collect_lookup (keep : V → bool) (m : gmap string V)
    (i : string) (x : V) :
  map_fold (λ k v (acc : gmap string V), if keep v then <[k := v]> acc else acc)
    ∅ m !! i = Some x
  ↔ m !! i = Some x ∧ keep x = true.
Proof.
  apply (map_fold_weak_ind (λ (r m' : gmap string V),
    r !! i = Some x ↔ m' !! i = Some x ∧ keep x = true)).
  - rewrite lookup_empty. intuition congruence.
  - intros k v m' r Hk IH. destruct (decide (k = i)) as [->|Hne].
    + rewrite lookup_insert_eq. destruct (keep v) eqn:E.
      * rewrite lookup_insert_eq. intuition congruence.
      * rewrite IH, Hk. intuition congruence.
    + rewrite (lookup_insert_ne m') by done.
      destruct (keep v); [by rewrite lookup_insert_ne|done].
Qed.

(** A loop over [m] that deletes the entries it visits that satisfy
    [drop]. *)
Lemma range_delete_lookup (drop : V → bool) (m : gmap string V) (i : string) :
  map_fold (λ k v (acc : gmap string V), if drop v then delete k acc else acc)
    m m !! i
  = match m !! i with
    | Some v => if drop v then None else Some v
    | None => None
    end.
Proof.
  cut (∀ m0 : gmap string V,
    map_fold (λ k v (acc : gmap string V), if drop v then delete k acc else acc)
      m0 m !! i
    = match m !! i with
      | Some v => if drop v then None else m0 !! i
      | None => m0 !! i
      end).
  { intros H. rewrite H. destruct (m !! i) as [v|] eqn:E; [|done].
    by destruct (drop v). }
  intros m0.
  apply (map_fold_weak_ind (λ (r m' : gmap string V), r !! i =
    match m' !! i with
    | Some v => if drop v then None else m0 !! i
    | None => m0 !! i
    end)).
  - by rewrite lookup_empty.
  - intros k v m' r Hk IH. destruct (decide (k = i)) as [->|Hne].
    + rewrite lookup_insert_eq. rewrite Hk in IH.
      destruct (drop v); [by rewrite lookup_delete_eq|done].
    + rewrite (lookup_insert_ne m') by done. rewrite <- IH.
      destruct (drop v); [by rewrite lookup_delete_ne|done].
Qed.
End map_loops.

(** ** One call of [Record404], case by case *)

Lemma Record404_whitelisted (t : IP404Tracker) (ip : string) (now : Z) :
  fst (IsWhitelisted ip t) = true → Record404 ip now t = (false, t).
Proof.
  unfold Record404. run_state. simpl. intros ->. done.
Qed.

Lemma Record404_banned (t : IP404Tracker) (ip : string) (now : Z) :
  fst (IsWhitelisted ip t) = false →
  activeBan (bannedUntil t) ip now = true →
  Record404 ip now t = (true, t).
Proof.
  unfold Record404. run_state. simpl. intros -> ->. done.
Qed.

Lemma Record404_records (t : IP404Tracker) (ip : string) (now : Z) :
  fst (IsWhitelisted ip t) = false →
  activeBan (bannedUntil t) ip now = false →
  Record404 ip now t =
    let t1 := set_counts (<[ip := recentAt t ip now]>) t in
    if bool_decide (threshold t < Z.of_nat (length (recentAt t ip now)))
    then (true, set_bannedUntil (<[ip := now + banDuration t]>) t1)
    else (false, t1).
Proof.
  unfold Record404, recentAt, offenses, windowStart. run_state. simpl.
  intros -> ->. rewrite keepAfter_filter.
  by case_bool_decide.
Qed.

(** ** Runs of offenses that stay inside the window *)

Lemma allInWindow_before (w x : Z) (l r : list Z) :
  allInWindow w (l ++ x :: r) = true → Forall (λ s, x - w < s) l.
Proof.
  induction l as [|a l IH]; simpl; [constructor|].
  rewrite andb_true_iff. intros [Ha Hl]. constructor; [|by apply IH].
  rewrite forallb_forall in Ha.
  specialize (Ha x). rewrite bool_decide_eq_true in Ha.
  apply Ha, in_or_app. right. by left.
Qed.

Lemma reportAll_app (ip : string) (l1 l2 : list Z) (t : IP404Tracker) :
  reportAll ip (l1 ++ l2) t =
    let '(bs1, t1) := reportAll ip l1 t in
    let '(bs2, t2) := reportAll ip l2 t1 in
    (bs1 ++ bs2, t2).
Proof.
  revert t. induction l1 as [|now l1 IH]; intros t; simpl.
  - run_state. by destruct (reportAll ip l2 t).
  - cbv [mbind mret State_bind State_ret]. destruct (Record404 ip now t) as [b t0].
    rewrite IH. destruct (reportAll ip l1 t0) as [bs1 t1].
    by destruct (reportAll ip l2 t1).
Qed.

(** While the stored and the new offenses together stay at or below the
    threshold, every call answers [false], the stamps pile up and nothing
    but [counts[ip]] changes. *)
Lemma reportAll_tolerated (ip : string) (times : list Z) (t : IP404Tracker) :
  fst (IsWhitelisted ip t) = false →
  Forall (λ now, activeBan (bannedUntil t) ip now = false) times →
  allInWindow (window t) (offenses t ip ++ times) = true →
  Z.of_nat (length (offenses t ip ++ times)) ≤ threshold t →
  ∃ t', reportAll ip times t = (replicate (length times) false, t')
      ∧ offenses t' ip = offenses t ip ++ times
      ∧ bannedUntil t' = bannedUntil t
      ∧ whitelist t' = whitelist t
      ∧ threshold t' = threshold t
      ∧ window t' = window t
      ∧ banDuration t' = banDuration t.
Proof.
  revert t. induction times as [|now rest IH]; intros t Hwl Hban Hwin Hlen.
  - exists t. simpl. by rewrite app_nil_r.
  - apply Forall_cons in Hban as [Hnow Hrest].
    pose proof (allInWindow_before _ _ _ _ Hwin) as Hkept.
    assert (recentAt t ip now = offenses t ip ++ [now]) as Hrecent.
    { unfold recentAt. by rewrite window_all_kept. }
    pose proof (Record404_records t ip now Hwl Hnow) as Hstep.
    rewrite Hrecent in Hstep. simpl in Hstep.
    rewrite bool_decide_eq_false_2 in Hstep.
    2:{ rewrite !length_app in *. simpl in *. lia. }
    set (t1 := set_counts (<[ip := offenses t ip ++ [now]]>) t) in *.
    assert (offenses t1 ip = offenses t ip ++ [now]) as Hoff.
    { unfold offenses at 1, t1. simpl. by rewrite lookup_insert_eq. }
    destruct (IH t1) as (t' & Hrun & Hoff' & Hb & Hw & Hth & Hwi & Hbd).
    + done.
    + done.
    + rewrite Hoff, <- app_assoc. done.
    + rewrite Hoff, <- app_assoc. done.
    + exists t'. simpl. cbv [mbind mret State_bind State_ret].
      rewrite Hstep, Hrun. rewrite Hoff', Hoff, <- app_assoc.
      repeat split; done.
Qed.

(** ** The claims *)

(** C1. For a non-whitelisted identifier that is not currently banned,
    [Record404] answers [false] when the in-window offense count after
    appending the new event is at most the threshold, and answers [true] and
    writes the ban record [now + banDuration] when that count is strictly
    above it. The offenses counted are the stored stamps after the start of
    the window and the new one; unless the window is the most negative
    Duration these are the stamps strictly younger than [window]. Hence, for
    offenses that all lie inside the window, as long as stored and new
    offenses together number at most [threshold] no call bans, and the call
    that brings the total to [threshold + 1] is the first to answer [true]
    and to write a ban. *)
Theorem Record404_threshold_boundary
    (t : IP404Tracker) (ip : string) (now : Z) (times : list Z) :
  fst (IsWhitelisted ip t) = false →
  (activeBan (bannedUntil t) ip now = false →
     let n := Z.of_nat (length (recentAt t ip now)) in
     let t1 := set_counts (<[ip := recentAt t ip now]>) t in
     (n ≤ threshold t → Record404 ip now t = (false, t1)) ∧
     (threshold t < n →
        Record404 ip now t
        = (true, set_bannedUntil (<[ip := now + banDuration t]>) t1)) ∧
     (window t ≠ int_min →
        recentAt t ip now
        = filter (λ ts, now - window t < ts) (offenses t ip) ++ [now]))
  ∧
  (Forall (λ now, activeBan (bannedUntil t) ip now = false) times →
   allInWindow (window t) (offenses t ip ++ times) = true →
   let n := Z.of_nat (length (offenses t ip ++ times)) in
   (n ≤ threshold t →
      fst (reportAll ip times t) = replicate (length times) false ∧
      bannedUntil (snd (reportAll ip times t)) = bannedUntil t) ∧
   (n = threshold t + 1 → ∀ pre last, times = pre ++ [last] →
      fst (reportAll ip times t) = replicate (length pre) false ++ [true] ∧
      bannedUntil (snd (reportAll ip times t))
      = <[ip := last + banDuration t]> (bannedUntil t))).
Proof.
  intros Hwl. split.
  - intros Hban n t1. pose proof (Record404_records t ip now Hwl Hban) as Hstep.
    simpl in Hstep. fold t1 in Hstep. fold n in Hstep.
    split; [|split]; intros Hn.
    + by rewrite bool_decide_eq_false_2 in Hstep by lia.
    + by rewrite bool_decide_eq_true_2 in Hstep by lia.
    + unfold recentAt. by rewrite windowStart_minus.
  - intros Hban Hwin n. split.
    + intros Hn.
      destruct (reportAll_tolerated ip times t Hwl Hban Hwin Hn)
        as (t' & Hrun & _ & Hb & _).
      by rewrite Hrun.
    + intros Hn pre lst ->.
      rewrite Forall_app, Forall_singleton in Hban. destruct Hban as [Hpre Hlst].
      assert (allInWindow (window t) (offenses t ip ++ pre) = true) as Hwin'.
      { clear -Hwin. rewrite app_assoc in Hwin.
        induction (offenses t ip ++ pre) as [|a l IH]; [done|].
        simpl in *. rewrite andb_true_iff in *. destruct Hwin as [Ha Hl].
        split; [|by apply IH].
        rewrite forallb_app, andb_true_iff in Ha. apply Ha. }
      assert (Z.of_nat (length (offenses t ip ++ pre)) ≤ threshold t) as Hlen.
      { subst n. rewrite !length_app in *. simpl in *. lia. }
      destruct (reportAll_tolerated ip pre t Hwl Hpre Hwin' Hlen)
        as (t' & Hrun & Hoff & Hb & Hw & Hth & Hwi & Hbd).
      rewrite reportAll_app, Hrun. simpl.
      cbv [mbind mret State_bind State_ret].
      assert (recentAt t' ip lst = offenses t ip ++ pre ++ [lst]) as Hrecent.
      { unfold recentAt. rewrite Hoff.
        rewrite window_all_kept, <- app_assoc; [done|]. rewrite Hwi.
        apply (allInWindow_before _ _ _ []). by rewrite <- app_assoc. }
      rewrite (Record404_records t' ip lst).
      * rewrite Hrecent. simpl. rewrite bool_decide_eq_true_2.
        2:{ rewrite Hth. subst n. lia. }
        simpl. by rewrite Hb, Hbd.
      * unfold IsWhitelisted, gets in *. simpl in *. by rewrite Hw.
      * by rewrite Hb.
Qed.

Lemma Record404_threshold_boundary_witness :
  let t := NewIP404Tracker 3 60 86400 in
  let ip := "10.0.0.1"%string in
  fst (IsWhitelisted ip t) = false ∧
  activeBan (bannedUntil t) ip 0 = false ∧
  window t ≠ int_min ∧
  Forall (λ now, activeBan (bannedUntil t) ip now = false) [0; 1; 2; 3] ∧
  allInWindow (window t) (offenses t ip ++ [0; 1; 2; 3]) = true ∧
  Record404 ip 0 t = (false, set_counts (<[ip := [0]]>) t) ∧
  recentAt t ip 0 = filter (λ ts, 0 - window t < ts) (offenses t ip) ++ [0] ∧
  fst (reportAll ip [0; 1; 2; 3] t) = [false; false; false; true] ∧
  bannedUntil (snd (reportAll ip [0; 1; 2; 3] t)) = <[ip := 86403]> (bannedUntil t).
Proof.
  intros t ip.
  assert (Forall (λ now, activeBan (bannedUntil t) ip now = false) [0; 1; 2; 3])
    as Hban by (repeat constructor).
  destruct (Record404_threshold_boundary t ip 0 [0; 1; 2; 3] eq_refl)
    as [Hone Hrun].
  destruct (Hone eq_refl) as (Hle & _ & Hread).
  destruct (Hrun Hban eq_refl) as [_ Hlast].
  destruct (Hlast eq_refl [0; 1; 2] 3 eq_refl) as [Hres Hst].
  assert (Z.of_nat (length (recentAt t ip 0)) ≤ threshold t) as Hn
    by (vm_compute; discriminate).
  assert (window t ≠ int_min) as Hw by discriminate.
  exact (conj eq_refl (conj eq_refl (conj Hw (conj Hban (conj eq_refl
          (conj (Hle Hn) (conj (Hread Hw) (conj Hres Hst)))))))).
Defined.

(** One banned request through the gate. *)
Lemma Middleware_gate_step
    (next : Context → State Context) (ip : string) (clk : Clock)
    (c : Context) (t : IP404Tracker) (expiry : Z) :
  fst (IsWhitelisted ip t) = false →
  bannedUntil t !! ip = Some expiry →
  atCheck clk < expiry →
  Middleware next ip clk c t
  = (mkContext 404 true,
     set_bannedRequest
       (<[ip := int_wrap (default 0 (bannedRequest t !! ip) + 1)]>)
       (set_bannedUntil (<[ip := atExtend clk + banDuration t]>) t)).
Proof.
  intros Hwl Hexp Hlt.
  unfold Middleware, IsBanned, ExtendBan, BannedRequestCounter. run_state.
  unfold IsWhitelisted, gets in Hwl. simpl in *. rewrite Hwl.
  unfold activeBan. rewrite Hexp.
  rewrite (proj2 (After_true _ _) Hlt). rewrite Hwl. reflexivity.
Qed.

(** An identifier that keeps probing while banned gets the aborted 404 every
    time. *)
Lemma gateAll_never_released
    (next : Context → State Context) (ip : string) (c : Context)
    (clks : list Clock) (t : IP404Tracker) (expiry : Z) :
  fst (IsWhitelisted ip t) = false →
  bannedUntil t !! ip = Some expiry →
  keepsProbing (banDuration t) expiry clks = true →
  fst (gateAll next ip clks c t) = replicate (length clks) (mkContext 404 true).
Proof.
  revert t expiry. induction clks as [|clk rest IH]; intros t expiry Hwl Hexp Hkeep.
  - done.
  - simpl in Hkeep. apply andb_true_iff in Hkeep as [Hlt Hrest].
    apply bool_decide_eq_true in Hlt.
    simpl. cbv [mbind mret State_bind State_ret].
    rewrite (Middleware_gate_step next ip clk c t expiry Hwl Hexp Hlt).
    set (t1 := set_bannedRequest _ _).
    specialize (IH t1 (atExtend clk + banDuration t)).
    destruct (gateAll next ip rest c t1) as [rs t2]. simpl in *.
    f_equal. apply IH; [done| |done].
    by rewrite lookup_insert_eq.
Qed.

(** C2. When the gate check finds a non-whitelisted identifier banned, the
    middleware resets the expiry to the reading of [ExtendBan] plus
    [banDuration], bumps the identifier's banned-request counter by one (Go
    [int] addition: exactly [+ 1] below the largest [int]), touches nothing
    else and serves the aborted 404 without running the rest of the chain.
    Until that new expiry the identifier is found banned again, and as long
    as it keeps probing before the expiry in force, every further request of
    its gets the aborted 404. *)
Theorem Middleware_gate_extends
    (next : Context → State Context) (ip : string) (clk : Clock)
    (c : Context) (t : IP404Tracker) (expiry : Z) :
  fst (IsWhitelisted ip t) = false →
  bannedUntil t !! ip = Some expiry →
  atCheck clk < expiry →
  let tally := default 0 (bannedRequest t !! ip) in
  let t' := snd (Middleware next ip clk c t) in
  Middleware next ip clk c t
  = (mkContext 404 true,
     set_bannedRequest (<[ip := int_wrap (tally + 1)]>)
       (set_bannedUntil (<[ip := atExtend clk + banDuration t]>) t))
  ∧ bannedUntil t' !! ip = Some (atExtend clk + banDuration t)
  ∧ bannedRequest t' !! ip = Some (int_wrap (tally + 1))
  ∧ (int_min ≤ tally < int_max → bannedRequest t' !! ip = Some (tally + 1))
  ∧ (∀ now, now < atExtend clk + banDuration t → fst (IsBanned ip now t') = true)
  ∧ (∀ more c',
       keepsProbing (banDuration t) (atExtend clk + banDuration t) more = true →
       fst (gateAll next ip more c' t')
       = replicate (length more) (mkContext 404 true)).
Proof.
  intros Hwl Hexp Hlt tally t'.
  pose proof (Middleware_gate_step next ip clk c t expiry Hwl Hexp Hlt) as Hrun.
  fold tally in Hrun. subst t'. rewrite Hrun.
  cbn [snd set_bannedRequest set_bannedUntil bannedUntil bannedRequest].
  rewrite !lookup_insert_eq.
  split; [done|]. split; [done|]. split; [done|]. split; [|split].
  - intros Hrange. rewrite int_wrap_in_range; [done|].
    unfold int_min, int_max in *. lia.
  - intros now Hnow. unfold IsBanned. run_state.
    unfold IsWhitelisted, gets in Hwl.
    cbn [fst whitelist bannedUntil set_bannedRequest set_bannedUntil] in *.
    rewrite Hwl. unfold activeBan.
    cbn [fst bannedUntil set_bannedRequest set_bannedUntil].
    rewrite lookup_insert_eq.
    by apply After_true.
  - intros more c' Hkeep.
    apply (gateAll_never_released next ip c' more _
             (atExtend clk + banDuration t)); [done| |done].
    cbn [bannedUntil set_bannedRequest set_bannedUntil].
    by rewrite lookup_insert_eq.
Qed.

Lemma Middleware_gate_extends_witness :
  let t := snd (reportAll "10.0.0.1" [0; 1; 2; 3] (NewIP404Tracker 3 60 86400)) in
  let clk := mkClock 3600 3601 3602 in
  fst (IsWhitelisted "10.0.0.1" t) = false ∧
  bannedUntil t !! "10.0.0.1"%string = Some 86403 ∧
  atCheck clk < 86403 ∧
  Middleware (λ c, mret c) "10.0.0.1" clk (mkContext 200 false) t
  = (mkContext 404 true,
     set_bannedRequest (<["10.0.0.1"%string := 1]>)
       (set_bannedUntil (<["10.0.0.1"%string := 90001]>) t))
  ∧ bannedRequest (snd (Middleware (λ c, mret c) "10.0.0.1" clk
                          (mkContext 200 false) t)) !! "10.0.0.1"%string
    = Some 1.
Proof.
  intros t clk.
  destruct (Middleware_gate_extends (λ c, mret c) "10.0.0.1" clk
              (mkContext 200 false) t 86403 eq_refl eq_refl eq_refl)
    as (Hrun & _ & _ & Htally & _).
  assert (int_min ≤ default 0 (bannedRequest t !! "10.0.0.1"%string) < int_max)
    as Hrange by (vm_compute; split; [discriminate|reflexivity]).
  exact (conj eq_refl (conj eq_refl (conj eq_refl (conj Hrun (Htally Hrange))))).
Defined.

(** C3. For a non-whitelisted identifier that is not currently banned, and
    a window that is a Duration Go can negate (any but the most negative),
    [Record404] at [now] stores for it the old stamps that are strictly
    younger than [window], in their order, followed by [now]: a stamp equal
    to [now - window] or older is gone, every stamp kept is one that was
    stored, and with no prior entries the stored window is [[now]], of
    length 1. The windows of other identifiers are not touched. *)
Theorem Record404_prunes_and_appends
    (t : IP404Tracker) (ip : string) (now : Z) :
  fst (IsWhitelisted ip t) = false →
  activeBan (bannedUntil t) ip now = false →
  window t ≠ int_min →
  let t' := snd (Record404 ip now t) in
  let kept := filter (λ ts, now - window t < ts) (offenses t ip) in
  counts t' !! ip = Some (kept ++ [now])
  ∧ (∀ ts, ts ∈ kept ↔ ts ∈ offenses t ip ∧ now - window t < ts)
  ∧ (∀ ts, ts ≤ now - window t → ts ∉ kept)
  ∧ kept `sublist_of` offenses t ip
  ∧ (offenses t ip = [] → offenses t' ip = [now] ∧ length (offenses t' ip) = 1%nat)
  ∧ (∀ other, other ≠ ip → counts t' !! other = counts t !! other).
Proof.
  intros Hwl Hban Hwin t' kept.
  pose proof (Record404_records t ip now Hwl Hban) as Hstep.
  assert (recentAt t ip now = kept ++ [now]) as Hrecent.
  { unfold recentAt. by rewrite windowStart_minus. }
  rewrite Hrecent in Hstep.
  assert (counts t' !! ip = Some (kept ++ [now])
          ∧ ∀ other, other ≠ ip → counts t' !! other = counts t !! other)
    as [Hip Hother].
  { subst t'. rewrite Hstep. cbv zeta.
    case_bool_decide; cbn [snd counts set_counts set_bannedUntil].
    - rewrite lookup_insert_eq. split; [done|].
      intros other Hne. by rewrite lookup_insert_ne.
    - rewrite lookup_insert_eq. split; [done|].
      intros other Hne. by rewrite lookup_insert_ne. }
  split; [done|]. split.
  { intros ts. subst kept. rewrite list_elem_of_filter. tauto. }
  split.
  { intros ts Hts. subst kept. rewrite list_elem_of_filter. lia. }
  split.
  { apply sublist_filter. }
  split; [|done].
  intros Hnil. unfold offenses at 1 2. rewrite Hip. subst kept.
  rewrite Hnil. done.
Qed.

Lemma Record404_prunes_and_appends_witness :
  let t := set_counts (<["10.0.0.1"%string := [0; 10; 20]]>)
             (NewIP404Tracker 3 60 86400) in
  fst (IsWhitelisted "10.0.0.1" t) = false ∧
  activeBan (bannedUntil t) "10.0.0.1" 70 = false ∧
  window t ≠ int_min ∧
  counts (snd (Record404 "10.0.0.1" 70 t)) !! "10.0.0.1"%string = Some [20; 70].
Proof.
  intros t.
  assert (window t ≠ int_min) as Hw by discriminate.
  exact (conj eq_refl (conj eq_refl (conj Hw
    (proj1 (Record404_prunes_and_appends t "10.0.0.1" 70 eq_refl eq_refl Hw))))).
Defined.

(** C4. For a non-whitelisted identifier, [IsBanned] at [now] answers [true]
    exactly when a ban record exists whose expiry is strictly after [now]
    (so an expiry equal to [now] reads as not banned); and the map returned
    by [GetBannedIPs] at [now] holds an identifier, with its expiry, exactly
    when [bannedUntil] holds it with an expiry strictly after [now]. *)
Theorem IsBanned_and_GetBannedIPs_strict
    (t : IP404Tracker) (ip : string) (now : Z) :
  fst (IsWhitelisted ip t) = false →
  (fst (IsBanned ip now t) = true
     ↔ ∃ expiry, bannedUntil t !! ip = Some expiry ∧ now < expiry)
  ∧ (bannedUntil t !! ip = Some now → fst (IsBanned ip now t) = false)
  ∧ (∀ id expiry,
       fst (GetBannedIPs now t) !! id = Some expiry
       ↔ bannedUntil t !! id = Some expiry ∧ now < expiry).
Proof.
  intros Hwl. unfold IsWhitelisted, gets in Hwl. cbn [fst] in Hwl.
  assert (fst (IsBanned ip now t) = activeBan (bannedUntil t) ip now) as Hib.
  { unfold IsBanned. run_state. by rewrite Hwl. }
  rewrite Hib. unfold activeBan. split; [|split].
  - destruct (bannedUntil t !! ip) as [e|].
    + rewrite After_true. split; [eauto|]. by intros (e' & [= <-] & ?).
    + split; [done|]. by intros (e' & [=] & ?).
  - intros ->. apply After_false. lia.
  - intros id expiry. unfold GetBannedIPs, gets. cbn [fst].
    rewrite (range_collect_lookup (λ banTime, After banTime now)).
    by rewrite After_true.
Qed.

Lemma IsBanned_and_GetBannedIPs_strict_witness :
  let t := set_bannedUntil (<["10.0.0.2"%string := 50]>)
             (set_bannedUntil (<["10.0.0.1"%string := 100]>)
                (NewIP404Tracker 3 60 86400)) in
  fst (IsWhitelisted "10.0.0.1" t) = false ∧
  fst (IsBanned "10.0.0.1" 99 t) = true ∧
  fst (IsBanned "10.0.0.1" 100 t) = false ∧
  fst (GetBannedIPs 50 t) !! "10.0.0.1"%string = Some 100 ∧
  fst (GetBannedIPs 50 t) !! "10.0.0.2"%string = None.
Proof.
  intros t.
  destruct (IsBanned_and_GetBannedIPs_strict t "10.0.0.1" 99 eq_refl)
    as (Hiff & _ & Hlist).
  destruct (IsBanned_and_GetBannedIPs_strict t "10.0.0.1" 100 eq_refl)
    as (_ & Hat & _).
  refine (conj eq_refl (conj _ (conj (Hat eq_refl) (conj eq_refl eq_refl)))).
  apply Hiff. exists 100. split; [reflexivity|lia].
Defined.

(** C5. For a whitelisted identifier, [IsBanned] answers [false] and
    [Record404] answers [false], and both return the tracker as they found
    it, whatever its counts and bans hold; so does any run of offenses and
    of ban checks, however long. *)
Theorem whitelist_takes_precedence (t : IP404Tracker) (ip : string) :
  fst (IsWhitelisted ip t) = true →
  (∀ now, IsBanned ip now t = (false, t))
  ∧ (∀ now, Record404 ip now t = (false, t))
  ∧ (∀ times, reportAll ip times t = (replicate (length times) false, t))
  ∧ (∀ times, checkAll ip times t = (replicate (length times) false, t)).
Proof.
  intros Hwl.
  assert (∀ now, IsBanned ip now t = (false, t)) as Hib.
  { intros now. unfold IsBanned. run_state.
    unfold IsWhitelisted, gets in Hwl. cbn [fst] in Hwl. by rewrite Hwl. }
  pose proof (Record404_whitelisted t ip) as Hrec.
  split; [done|]. split; [by auto|]. split.
  - induction times as [|now rest IH]; [done|].
    simpl. cbv [mbind mret State_bind State_ret].
    by rewrite Hrec, IH.
  - induction times as [|now rest IH]; [done|].
    simpl. cbv [mbind mret State_bind State_ret].
    by rewrite Hib, IH.
Qed.

Lemma whitelist_takes_precedence_witness :
  let t := set_bannedUntil (<["1.1.1.1"%string := 1000]>)
             (NewIP404Tracker 3 60 86400) in
  fst (IsWhitelisted "1.1.1.1" t) = true ∧
  IsBanned "1.1.1.1" 5 t = (false, t) ∧
  reportAll "1.1.1.1" [0; 0; 0; 0; 0] t
  = ([false; false; false; false; false], t).
Proof.
  intros t.
  destruct (whitelist_takes_precedence t "1.1.1.1" eq_refl)
    as (Hib & _ & Hrun & _).
  exact (conj eq_refl (conj (Hib 5) (Hrun [0; 0; 0; 0; 0]))).
Defined.

(** C6, as the code has it. [NewIP404Tracker] stores the three values it is
    given without looking at them: whatever they are, the tracker it returns
    has them as its threshold, window and ban duration, and starts with no
    counts, no bans, no tally and the hardcoded whitelist. *)
Theorem NewIP404Tracker_stores_config (threshold window banDuration : Z) :
  NewIP404Tracker threshold window banDuration
  = mkTracker ∅ ∅ {["1.1.1.1"%string := true]} ∅ threshold window banDuration.
Proof. reflexivity. Qed.

(** C6, as stated, fails: a tracker is constructed from a zero threshold, a
    negative window and a zero ban duration, and keeps them. *)
Lemma NewIP404Tracker_accepts_nonpositive :
  let t := NewIP404Tracker 0 (-5) 0 in
  ¬ (0 < threshold t) ∧ ¬ (0 < window t) ∧ ¬ (0 < banDuration t).
Proof. cbv zeta. cbn. lia. Qed.

(** C7. For a non-whitelisted identifier whose ban expiry is strictly after
    [now], [Record404] answers [true]; it leaves the tracker as it found
    it. *)
Theorem Record404_already_banned
    (t : IP404Tracker) (ip : string) (now expiry : Z) :
  fst (IsWhitelisted ip t) = false →
  bannedUntil t !! ip = Some expiry →
  now < expiry →
  Record404 ip now t = (true, t).
Proof.
  intros Hwl Hexp Hlt. apply Record404_banned; [done|].
  unfold activeBan. rewrite Hexp. by apply After_true.
Qed.

Lemma Record404_already_banned_witness :
  let t := set_bannedUntil (<["10.0.0.1"%string := 100]>)
             (NewIP404Tracker 3 60 86400) in
  fst (IsWhitelisted "10.0.0.1" t) = false ∧
  bannedUntil t !! "10.0.0.1"%string = Some 100 ∧
  99 < 100 ∧
  Record404 "10.0.0.1" 99 t = (true, t).
Proof.
  intros t.
  exact (conj eq_refl (conj eq_refl (conj eq_refl
    (Record404_already_banned t "10.0.0.1" 99 100 eq_refl eq_refl eq_refl)))).
Defined.

(** C8. For a window that is a Duration Go can negate (any but the most
    negative): after [cleanup] at [now], each identifier's stored window is
    what the stamps strictly younger than [window] leave of it, and the entry is
    gone when they leave nothing: no stored window holds a stamp that is
    [window] old or older, and none is empty. A ban record survives exactly
    when its expiry is not before [now]; one whose expiry is in the past is
    gone. Whitelist, tally and configuration are as before. *)
Theorem cleanup_sweeps_stale_state (t : IP404Tracker) (now : Z) :
  window t ≠ int_min →
  let t' := snd (cleanup now t) in
  let fresh := filter (λ ts, now - window t < ts) in
  (∀ ip, counts t' !! ip
         = counts t !! ip ≫= λ l, if decide (fresh l = []) then None else Some (fresh l))
  ∧ (∀ ip l, counts t' !! ip = Some l →
       l ≠ [] ∧ Forall (λ ts, now - window t < ts) l)
  ∧ (∀ ip l, counts t !! ip = Some l → fresh l = [] → counts t' !! ip = None)
  ∧ (∀ ip expiry, bannedUntil t' !! ip = Some expiry
       ↔ bannedUntil t !! ip = Some expiry ∧ now ≤ expiry)
  ∧ (∀ ip expiry, bannedUntil t !! ip = Some expiry → expiry < now →
       bannedUntil t' !! ip = None)
  ∧ whitelist t' = whitelist t
  ∧ bannedRequest t' = bannedRequest t
  ∧ (threshold t', window t', banDuration t') = (threshold t, window t, banDuration t).
Proof.
  intros Hwin t' fresh.
  assert (∀ ip, counts t' !! ip
    = counts t !! ip ≫= λ l, if decide (fresh l = []) then None else Some (fresh l))
    as Hcounts.
  { intros ip. subst t'. unfold cleanup. run_state.
    cbn [snd counts set_counts set_bannedUntil].
    apply (range_update_lookup
      (λ _ l, if decide (fresh l = []) then None else Some (fresh l))).
    intros k v acc. rewrite keepAfter_filter.
    change (Add now (negDuration (window t))) with (windowStart t now).
    rewrite windowStart_minus by done. fold (fresh v).
    destruct (fresh v); simpl; done. }
  assert (∀ ip, bannedUntil t' !! ip
    = match bannedUntil t !! ip with
      | Some e => if Before e now then None else Some e
      | None => None
      end) as Hbans.
  { intros ip. subst t'. unfold cleanup. run_state.
    cbn [snd bannedUntil set_counts set_bannedUntil].
    apply (range_delete_lookup (λ e, Before e now)). }
  split; [done|]. split.
  { intros ip l. rewrite Hcounts. destruct (counts t !! ip) as [l0|]; [|done].
    simpl. case_decide; [done|]. intros [= <-]. split; [done|].
    subst fresh. simpl. apply Forall_forall. intros ts.
    rewrite list_elem_of_filter. tauto. }
  split.
  { intros ip l Hl Hnil. rewrite Hcounts, Hl. simpl. by rewrite decide_True. }
  split.
  { intros ip e. rewrite Hbans. destruct (bannedUntil t !! ip) as [e0|].
    - destruct (Before e0 now) eqn:E.
      + apply Before_true in E. split; [done|]. intros [[= ->] ?]. lia.
      + unfold Before in E. apply bool_decide_eq_false in E.
        split; [intros [= ->]; split; [done|lia] | by intros [? _]].
    - split; [done | by intros [? _]]. }
  split.
  { intros ip e He Hlt. rewrite Hbans, He.
    by rewrite (proj2 (Before_true _ _) Hlt). }
  subst t'. unfold cleanup. run_state. done.
Qed.

Lemma cleanup_sweeps_stale_state_witness :
  let t := set_bannedUntil (<["10.0.0.3"%string := 99]>)
           (set_counts (<["10.0.0.2"%string := [5; 40]]>)
           (set_counts (<["10.0.0.1"%string := [0; 10; 50]]>)
             (NewIP404Tracker 3 60 86400))) in
  let t' := snd (cleanup 100 t) in
  window t ≠ int_min ∧
  counts t' !! "10.0.0.1"%string = Some [50] ∧
  counts t' !! "10.0.0.2"%string = None ∧
  bannedUntil t' !! "10.0.0.3"%string = None.
Proof.
  intros t t'.
  assert (window t ≠ int_min) as Hw by discriminate.
  destruct (cleanup_sweeps_stale_state t 100 Hw)
    as (Hcounts & _ & Hgone & _ & Hban & _).
  exact (conj Hw (conj (Hcounts "10.0.0.1"%string)
          (conj (Hgone "10.0.0.2"%string [5; 40] eq_refl eq_refl)
                (Hban "10.0.0.3"%string 99 eq_refl eq_refl)))).
Defined.

(** C9. [IsBanned] returns the tracker it was given, for any identifier and
    any reading of the clock; so does any run of ban checks, and each check
    of the run answers what it would have answered alone. *)
Theorem IsBanned_no_side_effect (t : IP404Tracker) (ip : string) :
  (∀ now, snd (IsBanned ip now t) = t)
  ∧ (∀ times, snd (checkAll ip times t) = t)
  ∧ (∀ times, fst (checkAll ip times t)
              = map (λ now, fst (IsBanned ip now t)) times).
Proof.
  assert (∀ now, snd (IsBanned ip now t) = t) as Hone.
  { intros now. unfold IsBanned. run_state.
    by destruct (default false (whitelist t !! ip)). }
  assert (∀ times, checkAll ip times t
    = (map (λ now, fst (IsBanned ip now t)) times, t)) as Hall.
  { induction times as [|now rest IH]; [done|].
    simpl. cbv [mbind mret State_bind State_ret].
    specialize (Hone now). destruct (IsBanned ip now t) as [b t0].
    simpl in Hone. subst t0. by rewrite IH. }
  split; [done|]. split; intros times; by rewrite Hall.
Qed.

(** C10. For a non-whitelisted identifier, [ExtendBan] at [now] sets the
    expiry to [now + banDuration] and changes nothing else, whether or not a
    record exists and whether or not it has expired; with a positive ban
    duration an identifier that was not banned is banned afterwards. *)
Theorem ExtendBan_unconditional (t : IP404Tracker) (ip : string) (now : Z) :
  fst (IsWhitelisted ip t) = false →
  let t' := snd (ExtendBan ip now t) in
  t' = set_bannedUntil (<[ip := now + banDuration t]>) t
  ∧ bannedUntil t' !! ip = Some (now + banDuration t)
  ∧ (fst (IsBanned ip now t) = false → 0 < banDuration t →
       fst (IsBanned ip now t') = true).
Proof.
  intros Hwl t'. unfold IsWhitelisted, gets in Hwl. cbn [fst] in Hwl.
  assert (t' = set_bannedUntil (<[ip := now + banDuration t]>) t) as Ht'.
  { subst t'. unfold ExtendBan. run_state. by rewrite Hwl. }
  split; [done|]. rewrite Ht'. cbn [bannedUntil set_bannedUntil].
  rewrite lookup_insert_eq. split; [done|].
  intros _ Hpos. unfold IsBanned. run_state.
  cbn [fst whitelist bannedUntil set_bannedUntil]. rewrite Hwl.
  unfold activeBan. cbn [fst bannedUntil set_bannedUntil].
  rewrite lookup_insert_eq. apply After_true. lia.
Qed.

Lemma ExtendBan_unconditional_witness :
  let t := set_bannedUntil (<["10.0.0.2"%string := 50]>)
             (NewIP404Tracker 3 60 86400) in
  (fst (IsWhitelisted "10.0.0.1" t) = false ∧
   bannedUntil t !! "10.0.0.1"%string = None ∧
   bannedUntil (snd (ExtendBan "10.0.0.1" 7 t)) !! "10.0.0.1"%string = Some 86407)
  ∧
  (fst (IsWhitelisted "10.0.0.2" t) = false ∧
   fst (IsBanned "10.0.0.2" 60 t) = false ∧
   bannedUntil (snd (ExtendBan "10.0.0.2" 60 t)) !! "10.0.0.2"%string = Some 86460 ∧
   fst (IsBanned "10.0.0.2" 60 (snd (ExtendBan "10.0.0.2" 60 t))) = true).
Proof.
  intros t.
  destruct (ExtendBan_unconditional t "10.0.0.1" 7 eq_refl) as (_ & Hnew & _).
  destruct (ExtendBan_unconditional t "10.0.0.2" 60 eq_refl) as (_ & Hold & Hre).
  exact (conj (conj eq_refl (conj eq_refl Hnew))
              (conj eq_refl (conj eq_refl (conj Hold (Hre eq_refl eq_refl))))).
Defined.

(** ** The earlier middleware

    The gate of 404blocker.go serves the same aborted 404 to a banned
    identifier but leaves the tracker alone: there the ban runs out at its
    original expiry. *)
Remark Middleware0_gate_leaves_tracker
    (next : Context → State Context) (ip : string) (clk : Clock)
    (c : Context) (t : IP404Tracker) :
  fst (IsBanned ip (atCheck clk) t) = true →
  Middleware0 next ip clk c t = (mkContext 404 true, t).
Proof.
  unfold Middleware0, IsBanned. run_state.
  destruct (default false (whitelist t !! ip)); cbn [fst]; [done|].
  by intros ->.
Qed.

(** * Beyond the ban policy: the rest of the tracker *)

(** ** Whitelist editing *)

Lemma IsBanned_whitelisted (t : IP404Tracker) (ip : string) (now : Z) :
  fst (IsWhitelisted ip t) = true → IsBanned ip now t = (false, t).
Proof.
  unfold IsBanned. run_state. cbn [fst]. by intros ->.
Qed.

Lemma IsBanned_not_whitelisted (t : IP404Tracker) (ip : string) (now : Z) :
  fst (IsWhitelisted ip t) = false →
  IsBanned ip now t = (activeBan (bannedUntil t) ip now, t).
Proof.
  unfold IsBanned. run_state. cbn [fst]. by intros ->.
Qed.

Lemma ExtendBan_whitelisted (t : IP404Tracker) (ip : string) (now : Z) :
  fst (IsWhitelisted ip t) = true → ExtendBan ip now t = (tt, t).
Proof.
  unfold ExtendBan. run_state. cbn [fst]. by intros ->.
Qed.

(** X1. [AddToWhitelist] takes effect at once and over an active ban: from
    then on [IsBanned] and [Record404] answer [false] for the identifier and
    [ExtendBan] does nothing, whatever the tracker held. It edits the
    whitelist only: the identifier's ban record and offense window stay, so
    [GetBannedIPs] lists what it listed before; other identifiers keep their
    whitelist status. *)
Theorem AddToWhitelist_overrides_ban (t : IP404Tracker) (ip : string) :
  let t' := snd (AddToWhitelist ip t) in
  fst (IsWhitelisted ip t') = true
  ∧ (∀ now, IsBanned ip now t' = (false, t')
          ∧ Record404 ip now t' = (false, t')
          ∧ ExtendBan ip now t' = (tt, t'))
  ∧ (∀ other, other ≠ ip →
       fst (IsWhitelisted other t') = fst (IsWhitelisted other t))
  ∧ counts t' = counts t
  ∧ bannedUntil t' = bannedUntil t
  ∧ bannedRequest t' = bannedRequest t
  ∧ (∀ now, fst (GetBannedIPs now t') = fst (GetBannedIPs now t)).
Proof.
  intros t'.
  assert (fst (IsWhitelisted ip t') = true) as Hwl.
  { subst t'. unfold AddToWhitelist, IsWhitelisted, gets, modify.
    cbn [fst snd whitelist set_whitelist]. by rewrite lookup_insert_eq. }
  split; [done|]. split.
  { intros now. split; [|split].
    - by apply IsBanned_whitelisted.
    - by apply Record404_whitelisted.
    - by apply ExtendBan_whitelisted. }
  split.
  { intros other Hne. subst t'. unfold AddToWhitelist, IsWhitelisted, gets, modify.
    cbn [fst snd whitelist set_whitelist]. by rewrite lookup_insert_ne. }
  done.
Qed.

(** X2. [RemoveFromWhitelist] makes the identifier an ordinary one again,
    the hardcoded ones included, and a ban record it had is in force again:
    [IsBanned] answers by the record alone. Adding an identifier that was
    absent from the whitelist and removing it again gives back the tracker
    as it was. *)
Theorem RemoveFromWhitelist_restores (t : IP404Tracker) (ip : string) :
  let t' := snd (RemoveFromWhitelist ip t) in
  fst (IsWhitelisted ip t') = false
  ∧ (∀ now, fst (IsBanned ip now t') = activeBan (bannedUntil t) ip now)
  ∧ (∀ other, other ≠ ip →
       fst (IsWhitelisted other t') = fst (IsWhitelisted other t))
  ∧ (whitelist t !! ip = None →
       snd (RemoveFromWhitelist ip (snd (AddToWhitelist ip t))) = t).
Proof.
  intros t'.
  assert (fst (IsWhitelisted ip t') = false) as Hwl.
  { subst t'. unfold RemoveFromWhitelist, IsWhitelisted, gets, modify.
    cbn [fst snd whitelist set_whitelist]. by rewrite lookup_delete_eq. }
  split; [done|]. split.
  { intros now. by rewrite IsBanned_not_whitelisted. }
  split.
  { intros other Hne. subst t'. unfold RemoveFromWhitelist, IsWhitelisted, gets, modify.
    cbn [fst snd whitelist set_whitelist]. by rewrite lookup_delete_ne. }
  intros Hnone. unfold RemoveFromWhitelist, AddToWhitelist, modify, set_whitelist.
  cbn [snd counts bannedUntil whitelist bannedRequest threshold window banDuration].
  rewrite delete_insert_eq, delete_id by done. by destruct t.
Qed.

Lemma RemoveFromWhitelist_restores_witness :
  let t := set_bannedUntil (<["10.0.0.1"%string := 100]>)
             (NewIP404Tracker 3 60 86400) in
  whitelist t !! "10.0.0.1"%string = None ∧
  fst (IsBanned "10.0.0.1" 5 t) = true ∧
  fst (IsBanned "10.0.0.1" 5 (snd (AddToWhitelist "10.0.0.1" t))) = false ∧
  snd (RemoveFromWhitelist "10.0.0.1" (snd (AddToWhitelist "10.0.0.1" t))) = t ∧
  fst (IsWhitelisted "1.1.1.1" (snd (RemoveFromWhitelist "1.1.1.1" t))) = false.
Proof.
  intros t.
  destruct (RemoveFromWhitelist_restores t "10.0.0.1") as (_ & _ & _ & Hback).
  destruct (RemoveFromWhitelist_restores t "1.1.1.1") as (Hgone & _).
  exact (conj eq_refl (conj eq_refl (conj eq_refl (conj (Hback eq_refl) Hgone)))).
Defined.

(** ** What one call can do to the tracker *)

Lemma Record404_cases (t : IP404Tracker) (ip : string) (now : Z) :
  let t1 := set_counts (<[ip := recentAt t ip now]>) t in
  Record404 ip now t = (false, t)
  ∨ Record404 ip now t = (true, t)
  ∨ Record404 ip now t = (false, t1)
  ∨ Record404 ip now t
    = (true, set_bannedUntil (<[ip := now + banDuration t]>) t1).
Proof.
  intros t1. destruct (fst (IsWhitelisted ip t)) eqn:Hwl.
  { left. by apply Record404_whitelisted. }
  destruct (activeBan (bannedUntil t) ip now) eqn:Hban.
  { right; left. by apply Record404_banned. }
  rewrite (Record404_records t ip now Hwl Hban). cbv zeta. fold t1.
  case_bool_decide; auto.
Qed.

Lemma ExtendBan_cases (t : IP404Tracker) (ip : string) (now : Z) :
  snd (ExtendBan ip now t) = t
  ∨ snd (ExtendBan ip now t)
    = set_bannedUntil (<[ip := now + banDuration t]>) t.
Proof.
  unfold ExtendBan. run_state.
  destruct (default false (whitelist t !! ip)); [by left|by right].
Qed.

Lemma IsBanned_state (t : IP404Tracker) (ip : string) (now : Z) :
  snd (IsBanned ip now t) = t.
Proof.
  unfold IsBanned. run_state. by destruct (default false (whitelist t !! ip)).
Qed.

Lemma Middleware_answer (r : Context) (ip : string) (clk : Clock)
    (c : Context) (t : IP404Tracker) :
  Middleware (answer r) ip clk c t =
    if fst (IsBanned ip (atCheck clk) t)
    then (mkContext 404 true,
          snd (BannedRequestCounter ip (snd (ExtendBan ip (atExtend clk) t))))
    else if decide (status r = 404)
    then (r, snd (Record404 ip (atRecord clk) t))
    else (r, t).
Proof.
  unfold Middleware, answer. cbv [mbind mret State_bind State_ret].
  pose proof (IsBanned_state t ip (atCheck clk)) as Hst.
  destruct (IsBanned ip (atCheck clk) t) as [b t0]. cbn [fst snd] in *. subst t0.
  destruct b.
  - destruct (ExtendBan ip (atExtend clk) t) as [[] t1]. cbn [snd].
    by destruct (BannedRequestCounter ip t1) as [[] t2].
  - case_decide; [|done]. by destruct (Record404 ip (atRecord clk) t).
Qed.

Lemma Middleware0_answer (r : Context) (ip : string) (clk : Clock)
    (c : Context) (t : IP404Tracker) :
  Middleware0 (answer r) ip clk c t =
    if fst (IsBanned ip (atCheck clk) t)
    then (mkContext 404 true, t)
    else if decide (status r = 404)
    then (r, snd (Record404 ip (atRecord clk) t))
    else (r, t).
Proof.
  unfold Middleware0, answer. cbv [mbind mret State_bind State_ret].
  pose proof (IsBanned_state t ip (atCheck clk)) as Hst.
  destruct (IsBanned ip (atCheck clk) t) as [b t0]. cbn [fst snd] in *. subst t0.
  destruct b; [done|].
  case_decide; [|done]. by destruct (Record404 ip (atRecord clk) t).
Qed.

(** A request is a short history of method calls. *)
Lemma exec_request (r : Context) (ip : string) (clk : Clock) (t : IP404Tracker) :
  exec (CallRequest r ip clk) t =
    if fst (IsBanned ip (atCheck clk) t)
    then execAll [CallExtendBan ip (atExtend clk); CallBannedRequestCounter ip] t
    else if decide (status r = 404)
    then exec (CallRecord404 ip (atRecord clk)) t
    else t.
Proof.
  cbn [exec execAll foldl]. rewrite Middleware_answer.
  destruct (fst (IsBanned ip (atCheck clk) t)); [done|]. by case_decide.
Qed.

Lemma exec_request0 (r : Context) (ip : string) (clk : Clock) (t : IP404Tracker) :
  exec (CallRequest0 r ip clk) t =
    if fst (IsBanned ip (atCheck clk) t)
    then t
    else if decide (status r = 404)
    then exec (CallRecord404 ip (atRecord clk)) t
    else t.
Proof.
  cbn [exec]. rewrite Middleware0_answer.
  destruct (fst (IsBanned ip (atCheck clk) t)); [done|]. by case_decide.
Qed.

(** ** The sweep, key by key *)

Lemma cleanup_counts_lookup (t : IP404Tracker) (now : Z) (ip : string) :
  counts (snd (cleanup now t)) !! ip
  = counts t !! ip ≫= λ l,
      let fresh := filter (λ ts, windowStart t now < ts) l in
      if decide (fresh = []) then None else Some fresh.
Proof.
  unfold cleanup. run_state. cbn [snd counts set_counts set_bannedUntil].
  apply (range_update_lookup
    (λ _ l, let fresh := filter (λ ts, windowStart t now < ts) l in
            if decide (fresh = []) then None else Some fresh)).
  intros k v acc. rewrite keepAfter_filter.
  change (Add now (negDuration (window t))) with (windowStart t now). cbv zeta.
  by destruct (filter (λ ts, windowStart t now < ts) v).
Qed.

Lemma cleanup_bans_lookup (t : IP404Tracker) (now : Z) (ip : string) :
  bannedUntil (snd (cleanup now t)) !! ip
  = match bannedUntil t !! ip with
    | Some e => if Before e now then None else Some e
    | None => None
    end.
Proof.
  unfold cleanup. run_state. cbn [snd bannedUntil set_counts set_bannedUntil].
  apply (range_delete_lookup (λ e, Before e now)).
Qed.

Lemma cleanup_frame (t : IP404Tracker) (now : Z) :
  let t' := snd (cleanup now t) in
  whitelist t' = whitelist t ∧ bannedRequest t' = bannedRequest t
  ∧ threshold t' = threshold t ∧ window t' = window t
  ∧ banDuration t' = banDuration t.
Proof. unfold cleanup. run_state. done. Qed.

Lemma cleanup_offenses (t : IP404Tracker) (now : Z) (ip : string) :
  offenses (snd (cleanup now t)) ip
  = filter (λ ts, windowStart t now < ts) (offenses t ip).
Proof.
  unfold offenses. rewrite cleanup_counts_lookup.
  destruct (counts t !! ip) as [l|]; [|done]. cbn.
  case_decide as Hnil; [by rewrite Hnil|done].
Qed.

(** ** Invariants of every history *)

Lemma int_wrap_range (z : Z) : int_min ≤ int_wrap z ≤ int_max.
Proof.
  unfold int_min, int_max, int_wrap.
  pose proof (Z.mod_pos_bound (z + 2 ^ 63) (2 ^ 64)). lia.
Qed.

Lemma recentAt_not_nil (t : IP404Tracker) (ip : string) (now : Z) :
  recentAt t ip now ≠ [].
Proof. unfold recentAt. by destruct (filter _ _). Qed.

Lemma wellFormed_set_counts (t : IP404Tracker) (ip : string) (l : list Z) :
  l ≠ [] → wellFormed t → wellFormed (set_counts (<[ip := l]>) t).
Proof.
  intros Hl (Hw & Hc & Hn). split; [done|]. split; [|done].
  intros k l'. cbn [counts set_counts].
  destruct (decide (ip = k)) as [->|Hne].
  - rewrite lookup_insert_eq. by intros [= <-].
  - rewrite lookup_insert_ne by done. apply Hc.
Qed.

Lemma wellFormed_set_bannedUntil (t : IP404Tracker) (f : gmap string Z → gmap string Z) :
  wellFormed t → wellFormed (set_bannedUntil f t).
Proof. by intros (Hw & Hc & Hn). Qed.

Lemma exec_wellFormed (call : Call) (t : IP404Tracker) :
  wellFormed t → wellFormed (exec call t).
Proof.
  assert (∀ ip now t, wellFormed t → wellFormed (snd (Record404 ip now t))) as Hrec.
  { intros ip now t0 Hwf.
    destruct (Record404_cases t0 ip now) as [H|[H|[H|H]]]; rewrite H; cbn [snd];
      try done.
    - apply wellFormed_set_counts; [apply recentAt_not_nil|done].
    - apply wellFormed_set_bannedUntil, wellFormed_set_counts;
        [apply recentAt_not_nil|done]. }
  assert (∀ ip now t, wellFormed t → wellFormed (snd (ExtendBan ip now t))) as Hext.
  { intros ip now t0 Hwf. destruct (ExtendBan_cases t0 ip now) as [H|H]; rewrite H;
      [done|by apply wellFormed_set_bannedUntil]. }
  assert (∀ ip t, wellFormed t → wellFormed (snd (BannedRequestCounter ip t))) as Hcnt.
  { intros ip t0 (Hw & Hc & Hn). split; [done|]. split; [done|].
    intros k n. unfold BannedRequestCounter, modify.
    cbn [snd bannedRequest set_bannedRequest].
    destruct (decide (ip = k)) as [->|Hne].
    - rewrite lookup_insert_eq. intros [= <-]. apply int_wrap_range.
    - rewrite lookup_insert_ne by done. apply Hn. }
  intros Hwf. destruct call as [ip|ip|ip| |ip now|ip now|ip|now|ip|ip now|now|r ip clk|r ip clk].
  - destruct Hwf as (Hw & Hc & Hn). split; [|done].
    intros k b. cbn. destruct (decide (ip = k)) as [->|Hne].
    + rewrite lookup_insert_eq. by intros [= <-].
    + rewrite lookup_insert_ne by done. apply Hw.
  - destruct Hwf as (Hw & Hc & Hn). split; [|done].
    intros k b. cbn. rewrite lookup_delete_Some. intros [_ Hk]. by apply (Hw k).
  - done.
  - done.
  - by apply Hrec.
  - cbn [exec]. by rewrite IsBanned_state.
  - by apply wellFormed_set_bannedUntil.
  - done.
  - by apply Hcnt.
  - by apply Hext.
  - destruct Hwf as (Hw & Hc & Hn).
    destruct (cleanup_frame t now) as (Ew & En & _). cbn [exec].
    split; [by rewrite Ew|]. split; [|by rewrite En].
    intros ip l. rewrite cleanup_counts_lookup.
    destruct (counts t !! ip) as [l0|]; [|done]. cbn.
    case_decide; [done|]. by intros [= <-].
  - rewrite exec_request. destruct (fst (IsBanned ip (atCheck clk) t)).
    + cbn [execAll foldl exec]. by apply Hcnt, Hext.
    + case_decide; [by apply Hrec|done].
  - rewrite exec_request0. destruct (fst (IsBanned ip (atCheck clk) t)); [done|].
    case_decide; [by apply Hrec|done].
Qed.

Lemma exec_config (call : Call) (t : IP404Tracker) :
  threshold (exec call t) = threshold t
  ∧ window (exec call t) = window t
  ∧ banDuration (exec call t) = banDuration t.
Proof.
  assert (∀ ip now t, threshold (snd (Record404 ip now t)) = threshold t
    ∧ window (snd (Record404 ip now t)) = window t
    ∧ banDuration (snd (Record404 ip now t)) = banDuration t) as Hrec.
  { intros ip now t0.
    destruct (Record404_cases t0 ip now) as [H|[H|[H|H]]]; by rewrite H. }
  assert (∀ ip now t, threshold (snd (ExtendBan ip now t)) = threshold t
    ∧ window (snd (ExtendBan ip now t)) = window t
    ∧ banDuration (snd (ExtendBan ip now t)) = banDuration t) as Hext.
  { intros ip now t0. destruct (ExtendBan_cases t0 ip now) as [H|H]; by rewrite H. }
  destruct call as [ip|ip|ip| |ip now|ip now|ip|now|ip|ip now|now|r ip clk|r ip clk];
    try done.
  - apply Hrec.
  - cbn [exec]. by rewrite IsBanned_state.
  - apply Hext.
  - rewrite exec_request. destruct (fst (IsBanned ip (atCheck clk) t)).
    + cbn [execAll foldl exec]. apply Hext.
    + case_decide; [apply Hrec|done].
  - rewrite exec_request0. destruct (fst (IsBanned ip (atCheck clk) t)); [done|].
    case_decide; [apply Hrec|done].
Qed.

Lemma execAll_keeps (calls : list Call) (t : IP404Tracker) :
  wellFormed t →
  wellFormed (execAll calls t)
  ∧ threshold (execAll calls t) = threshold t
  ∧ window (execAll calls t) = window t
  ∧ banDuration (execAll calls t) = banDuration t.
Proof.
  revert t. induction calls as [|call rest IH]; intros t Hwf; [done|].
  cbn [execAll foldl]. fold (execAll rest (exec call t)).
  destruct (IH (exec call t) (exec_wellFormed call t Hwf)) as (Hwf' & E1 & E2 & E3).
  destruct (exec_config call t) as (F1 & F2 & F3).
  rewrite E1, E2, E3. done.
Qed.

Lemma NewIP404Tracker_wellFormed (threshold0 window0 banDuration0 : Z) :
  wellFormed (NewIP404Tracker threshold0 window0 banDuration0).
Proof.
  split; [|done]. intros ip b. cbn.
  rewrite lookup_insert_Some, lookup_empty. by intros [[_ <-]|[_ [=]]].
Qed.

(** X3. Whatever history of calls a tracker built by [NewIP404Tracker] goes
    through (whitelist edits, offenses, checks, extensions, unbans, sweeps,
    requests through either middleware), its threshold, window and ban
    duration stay the constructor's arguments, no stored offense window is
    empty, every whitelist entry holds [true] and every tally is within
    the range of a Go [int]. *)
Theorem history_keeps_invariants
    (calls : list Call) (threshold0 window0 banDuration0 : Z) :
  let t := execAll calls (NewIP404Tracker threshold0 window0 banDuration0) in
  threshold t = threshold0 ∧ window t = window0 ∧ banDuration t = banDuration0
  ∧ (∀ ip l, counts t !! ip = Some l → l ≠ [])
  ∧ (∀ ip b, whitelist t !! ip = Some b → b = true)
  ∧ (∀ ip n, bannedRequest t !! ip = Some n → int_min ≤ n ≤ int_max).
Proof.
  cbv zeta.
  destruct (execAll_keeps calls _
              (NewIP404Tracker_wellFormed threshold0 window0 banDuration0))
    as ((Hw & Hc & Hn) & E1 & E2 & E3).
  done.
Qed.

(** ** Listing the whitelist *)

Lemma GetWhitelist_fsts (order : RangeOrder) (t : IP404Tracker) :
  fst (GetWhitelist order t) = (entriesOf order (whitelist t)).*1.
Proof.
  unfold GetWhitelist, gets. cbn [fst].
  cut (∀ (l : list (string * bool)) (acc : list string),
         foldl (λ ips entry, ips ++ [entry.1]) acc l = acc ++ l.*1).
  { intros H. by rewrite H. }
  induction l as [|e l IH]; intros acc; cbn.
  - by rewrite app_nil_r.
  - rewrite IH. by rewrite <- app_assoc.
Qed.

Lemma GetWhitelist_Permutation (order : RangeOrder) (t : IP404Tracker) :
  fst (GetWhitelist order t) ≡ₚ (map_to_list (whitelist t)).*1.
Proof.
  rewrite GetWhitelist_fsts. apply fmap_Permutation, entriesOf_perm.
Qed.

Lemma GetWhitelist_keys (order : RangeOrder) (t : IP404Tracker) :
  NoDup (fst (GetWhitelist order t))
  ∧ ∀ ip, ip ∈ fst (GetWhitelist order t) ↔ is_Some (whitelist t !! ip).
Proof.
  split.
  - rewrite GetWhitelist_Permutation. apply NoDup_fst_map_to_list.
  - intros ip. rewrite GetWhitelist_Permutation, list_elem_of_fmap. split.
    + intros [[k b] [-> Hin]]. apply elem_of_map_to_list in Hin. by exists b.
    + intros [b Hb]. exists (ip, b). split; [done|].
      by apply elem_of_map_to_list.
Qed.

(** X4. On a tracker with any history, and in whatever order the loop meets
    the entries of the map, [GetWhitelist] returns, without repetition,
    exactly the identifiers [IsWhitelisted] answers [true] for, and leaves
    the tracker as it found it; two listings of the same tracker differ in
    order at most. *)
Theorem GetWhitelist_lists_whitelisted
    (order : RangeOrder) (calls : list Call)
    (threshold0 window0 banDuration0 : Z) :
  let t := execAll calls (NewIP404Tracker threshold0 window0 banDuration0) in
  (∀ ip, ip ∈ fst (GetWhitelist order t) ↔ fst (IsWhitelisted ip t) = true)
  ∧ NoDup (fst (GetWhitelist order t))
  ∧ snd (GetWhitelist order t) = t
  ∧ (∀ order', fst (GetWhitelist order t) ≡ₚ fst (GetWhitelist order' t)).
Proof.
  intros t.
  destruct (execAll_keeps calls _
              (NewIP404Tracker_wellFormed threshold0 window0 banDuration0))
    as ((Hw & _) & _).
  fold t in Hw. destruct (GetWhitelist_keys order t) as [Hnd Hin].
  split; [|split; [done|split; [done|]]].
  - intros ip. rewrite Hin.
    unfold IsWhitelisted, gets. cbn [fst].
    destruct (whitelist t !! ip) as [b|] eqn:E; cbn.
    + rewrite (Hw ip b E). split; [done|eauto].
    + split; [by intros [? [=]]|done].
  - intros order'. by rewrite !GetWhitelist_Permutation.
Qed.

(** ** One identifier's calls and the others *)

Lemma Record404_result (t : IP404Tracker) (ip : string) (now : Z) :
  fst (Record404 ip now t) =
    if fst (IsWhitelisted ip t) then false
    else if activeBan (bannedUntil t) ip now then true
    else bool_decide (threshold t < Z.of_nat (length (recentAt t ip now))).
Proof.
  destruct (fst (IsWhitelisted ip t)) eqn:Hwl.
  { by rewrite Record404_whitelisted. }
  destruct (activeBan (bannedUntil t) ip now) eqn:Hban.
  { by rewrite Record404_banned. }
  rewrite (Record404_records t ip now Hwl Hban). cbv zeta.
  by case_bool_decide.
Qed.

Lemma Record404_view_other (t : IP404Tracker) (ip other : string) (now : Z) :
  other ≠ ip → view (snd (Record404 ip now t)) other = view t other.
Proof.
  intros Hne. unfold view.
  destruct (Record404_cases t ip now) as [H|[H|[H|H]]]; rewrite H;
    cbn [snd counts bannedUntil whitelist bannedRequest set_counts set_bannedUntil];
    rewrite ?lookup_insert_ne by done; done.
Qed.

Lemma ExtendBan_view_other (t : IP404Tracker) (ip other : string) (now : Z) :
  other ≠ ip → view (snd (ExtendBan ip now t)) other = view t other.
Proof.
  intros Hne. unfold view.
  destruct (ExtendBan_cases t ip now) as [H|H]; rewrite H;
    cbn [counts bannedUntil whitelist bannedRequest set_bannedUntil];
    rewrite ?lookup_insert_ne by done; done.
Qed.

Lemma BannedRequestCounter_view_other (t : IP404Tracker) (ip other : string) :
  other ≠ ip → view (snd (BannedRequestCounter ip t)) other = view t other.
Proof.
  intros Hne. unfold view, BannedRequestCounter, modify.
  cbn [snd counts bannedUntil whitelist bannedRequest set_bannedRequest].
  by rewrite lookup_insert_ne.
Qed.

Lemma exec_view_other (call : Call) (ip other : string) (t : IP404Tracker) :
  subject call = Some ip → other ≠ ip → view (exec call t) other = view t other.
Proof.
  intros Hsub Hne.
  destruct call as [k|k|k| |k now|k now|k|now|k|k now|now|r k clk|r k clk];
    cbn [subject] in Hsub; try discriminate; injection Hsub as ->.
  - unfold view. cbn. by rewrite lookup_insert_ne.
  - unfold view. cbn. by rewrite lookup_delete_ne.
  - done.
  - by apply Record404_view_other.
  - cbn [exec]. by rewrite IsBanned_state.
  - unfold view. cbn. by rewrite lookup_delete_ne.
  - by apply BannedRequestCounter_view_other.
  - by apply ExtendBan_view_other.
  - rewrite exec_request. destruct (fst (IsBanned ip (atCheck clk) t)).
    + cbn [execAll foldl exec].
      rewrite BannedRequestCounter_view_other by done.
      by apply ExtendBan_view_other.
    + case_decide; [by apply Record404_view_other|done].
  - rewrite exec_request0. destruct (fst (IsBanned ip (atCheck clk) t)); [done|].
    case_decide; [by apply Record404_view_other|done].
Qed.

(** X5. A call about one identifier (a whitelist edit, an offense, a check,
    an extension, an unban, a tally bump, a request through either
    middleware) leaves everything the tracker holds about any other
    identifier as it was: its offense window, ban record, whitelist entry
    and tally. So the other identifier is banned, and would be banned by its
    next offense, exactly as before the call. *)
Theorem calls_do_not_cross_identifiers
    (call : Call) (ip other : string) (t : IP404Tracker) :
  subject call = Some ip →
  other ≠ ip →
  view (exec call t) other = view t other
  ∧ (∀ now, fst (IsBanned other now (exec call t)) = fst (IsBanned other now t))
  ∧ (∀ now, fst (Record404 other now (exec call t))
            = fst (Record404 other now t)).
Proof.
  intros Hsub Hne.
  pose proof (exec_view_other call ip other t Hsub Hne) as Hview.
  destruct (exec_config call t) as (Eth & Ewin & _).
  unfold view in Hview. injection Hview as Hc Hb Hw Hn.
  split; [unfold view; congruence|]. split; intros now.
  - unfold IsBanned. run_state. cbn [fst]. rewrite Hw.
    destruct (default false (whitelist t !! other)); [done|].
    cbn [fst]. unfold activeBan. by rewrite Hb.
  - rewrite !Record404_result.
    unfold IsWhitelisted, gets, activeBan, recentAt, offenses, windowStart.
    cbn [fst]. by rewrite Hw, Hb, Hc, Eth, Ewin.
Qed.

Lemma calls_do_not_cross_identifiers_witness :
  let t := snd (reportAll "10.0.0.2" [0; 1; 2]
                  (snd (reportAll "10.0.0.1" [0; 1; 2; 3]
                          (NewIP404Tracker 3 60 86400)))) in
  let t' := exec (CallUnbanIP "10.0.0.1") t in
  subject (CallUnbanIP "10.0.0.1") = Some "10.0.0.1"%string ∧
  "10.0.0.2"%string ≠ "10.0.0.1"%string ∧
  view t' "10.0.0.2" = view t "10.0.0.2" ∧
  fst (Record404 "10.0.0.2" 3 t') = fst (Record404 "10.0.0.2" 3 t).
Proof.
  intros t t'.
  assert ("10.0.0.2"%string ≠ "10.0.0.1"%string) as Hne by discriminate.
  destruct (calls_do_not_cross_identifiers (CallUnbanIP "10.0.0.1")
              "10.0.0.1" "10.0.0.2" t eq_refl Hne) as (Hview & _ & Hrec).
  exact (conj eq_refl (conj Hne (conj Hview (Hrec 3)))).
Defined.

(** ** Lifting a ban by hand *)

Lemma GetBannedIPs_lookup (t : IP404Tracker) (now : Z) (ip : string) (expiry : Z) :
  fst (GetBannedIPs now t) !! ip = Some expiry
  ↔ bannedUntil t !! ip = Some expiry ∧ now < expiry.
Proof.
  unfold GetBannedIPs, gets. cbn [fst].
  rewrite (range_collect_lookup (λ banTime, After banTime now)).
  by rewrite After_true.
Qed.

(** X6. [UnbanIP] removes the identifier's ban record and nothing else:
    afterwards [IsBanned] answers [false] for it at any time and
    [GetBannedIPs] lists what it listed before, less the identifier. The
    offense window is not cleared: when the offenses still inside the window
    at the identifier's next 404 exceed the threshold, that 404 bans it again
    at once. *)
Theorem UnbanIP_lifts_ban_keeps_window (t : IP404Tracker) (ip : string) :
  let t' := snd (UnbanIP ip t) in
  t' = set_bannedUntil (delete ip) t
  ∧ (∀ now, fst (IsBanned ip now t') = false)
  ∧ (∀ now, fst (GetBannedIPs now t') = delete ip (fst (GetBannedIPs now t)))
  ∧ offenses t' ip = offenses t ip
  ∧ (∀ now, fst (IsWhitelisted ip t) = false →
       threshold t < Z.of_nat (length (recentAt t ip now)) →
       Record404 ip now t'
       = (true, set_bannedUntil (<[ip := now + banDuration t]>)
                  (set_counts (<[ip := recentAt t ip now]>) t'))).
Proof.
  intros t'. assert (t' = set_bannedUntil (delete ip) t) as Ht' by done.
  split; [done|]. split; [|split; [|split; [done|]]].
  - intros now. unfold IsBanned. run_state. cbn [fst].
    destruct (default false (whitelist t' !! ip)); [done|]. cbn [fst].
    unfold activeBan. rewrite Ht'. cbn [bannedUntil set_bannedUntil].
    by rewrite lookup_delete_eq.
  - intros now. apply map_eq. intros k. apply option_eq. intros e.
    rewrite lookup_delete_Some, !GetBannedIPs_lookup, Ht'.
    cbn [bannedUntil set_bannedUntil]. rewrite lookup_delete_Some. tauto.
  - intros now Hwl Hover.
    assert (activeBan (bannedUntil t') ip now = false) as Hban.
    { unfold activeBan. rewrite Ht'. cbn [bannedUntil set_bannedUntil].
      by rewrite lookup_delete_eq. }
    rewrite (Record404_records t' ip now Hwl Hban). cbv zeta.
    change (recentAt t' ip now) with (recentAt t ip now).
    change (threshold t') with (threshold t).
    change (banDuration t') with (banDuration t).
    by rewrite bool_decide_eq_true_2.
Qed.

Lemma UnbanIP_lifts_ban_keeps_window_witness :
  let t := snd (reportAll "10.0.0.1" [0; 1; 2; 3] (NewIP404Tracker 3 60 86400)) in
  let t' := snd (UnbanIP "10.0.0.1" t) in
  fst (IsBanned "10.0.0.1" 4 t) = true ∧
  fst (IsBanned "10.0.0.1" 4 t') = false ∧
  fst (IsWhitelisted "10.0.0.1" t) = false ∧
  threshold t < Z.of_nat (length (recentAt t "10.0.0.1" 4)) ∧
  fst (Record404 "10.0.0.1" 4 t') = true ∧
  bannedUntil (snd (Record404 "10.0.0.1" 4 t')) !! "10.0.0.1"%string = Some 86404.
Proof.
  intros t t'.
  destruct (UnbanIP_lifts_ban_keeps_window t "10.0.0.1") as (_ & Hlift & _ & _ & Hagain).
  assert (threshold t < Z.of_nat (length (recentAt t "10.0.0.1" 4))) as Hover
    by reflexivity.
  pose proof (Hagain 4 eq_refl Hover) as Hrun. fold t' in Hrun.
  refine (conj eq_refl (conj (Hlift 4) (conj eq_refl (conj Hover _)))).
  rewrite Hrun. split; reflexivity.
Defined.

(** ** The banned-request tally *)

Lemma int_wrap_succ (z : Z) : int_wrap (int_wrap z + 1) = int_wrap (z + 1).
Proof.
  unfold int_wrap.
  replace ((z + 2 ^ 63) mod 2 ^ 64 - 2 ^ 63 + 1 + 2 ^ 63)
    with ((z + 2 ^ 63) mod 2 ^ 64 + 1) by lia.
  rewrite Zplus_mod_idemp_l. f_equal. f_equal. lia.
Qed.

(** X7. [BannedRequestCounter] counts per identifier, starting from zero for
    an identifier it has not seen: after [n + 1] calls the identifier's tally
    is its old value plus [n + 1] in Go [int] arithmetic, which is the exact
    sum as long as that fits an [int]. Other tallies, the offense windows,
    the bans and the whitelist are not touched. *)
Theorem BannedRequestCounter_counts (t : IP404Tracker) (ip : string) (n : nat) :
  let t' := Nat.iter (S n) (λ t, snd (BannedRequestCounter ip t)) t in
  let old := default 0 (bannedRequest t !! ip) in
  bannedRequest t' !! ip = Some (int_wrap (old + Z.of_nat (S n)))
  ∧ (int_min ≤ old → old + Z.of_nat (S n) ≤ int_max →
       bannedRequest t' !! ip = Some (old + Z.of_nat (S n)))
  ∧ (∀ other, other ≠ ip → bannedRequest t' !! other = bannedRequest t !! other)
  ∧ counts t' = counts t ∧ bannedUntil t' = bannedUntil t
  ∧ whitelist t' = whitelist t.
Proof.
  intros t' old.
  assert (bannedRequest t' !! ip = Some (int_wrap (old + Z.of_nat (S n)))
    ∧ (∀ other, other ≠ ip → bannedRequest t' !! other = bannedRequest t !! other)
    ∧ counts t' = counts t ∧ bannedUntil t' = bannedUntil t
    ∧ whitelist t' = whitelist t) as (Hip & Hother & Hrest).
  { subst t'. induction n as [|n IH].
    - cbn [Nat.iter nat_rect]. unfold BannedRequestCounter, modify.
      cbn [snd bannedRequest set_bannedRequest counts bannedUntil whitelist].
      rewrite lookup_insert_eq. split; [done|]. split; [|done].
      intros other Hne. by rewrite lookup_insert_ne.
    - destruct IH as (Hip & Hother & Hc & Hb & Hw).
      change (Nat.iter (S (S n)) (λ t, snd (BannedRequestCounter ip t)) t)
        with (snd (BannedRequestCounter ip
                (Nat.iter (S n) (λ t, snd (BannedRequestCounter ip t)) t))).
      set (t1 := Nat.iter (S n) _ t) in *.
      unfold BannedRequestCounter, modify.
      cbn [snd bannedRequest set_bannedRequest counts bannedUntil whitelist].
      rewrite lookup_insert_eq, Hip. cbn [default from_option id].
      rewrite int_wrap_succ. split.
      + do 2 f_equal. lia.
      + split; [|done]. intros other Hne. rewrite lookup_insert_ne by done.
        by apply Hother. }
  split; [done|]. split; [|done].
  intros Hlo Hhi. rewrite Hip. f_equal. apply int_wrap_in_range. lia.
Qed.

Lemma BannedRequestCounter_counts_witness :
  let t := NewIP404Tracker 3 60 86400 in
  let t' := Nat.iter 3 (λ t, snd (BannedRequestCounter "10.0.0.1" t)) t in
  bannedRequest t !! "10.0.0.1"%string = None ∧
  bannedRequest t' !! "10.0.0.1"%string = Some 3.
Proof.
  intros t t'.
  destruct (BannedRequestCounter_counts t "10.0.0.1" 2) as (_ & Hexact & _).
  refine (conj eq_refl (Hexact _ _)); vm_compute; discriminate.
Defined.

(** ** The answer of [Record404] and the ban state *)

(** X8. With a positive ban duration, [Record404] answers what [IsBanned]
    answers at the same instant on the tracker it leaves: [true] exactly when
    the identifier is banned once the offense is recorded. *)
Theorem Record404_answers_ban_state (t : IP404Tracker) (ip : string) (now : Z) :
  0 < banDuration t →
  fst (IsBanned ip now (snd (Record404 ip now t))) = fst (Record404 ip now t).
Proof.
  intros Hpos. destruct (fst (IsWhitelisted ip t)) eqn:Hwl.
  { rewrite Record404_whitelisted by done. cbn [fst snd].
    by rewrite IsBanned_whitelisted. }
  destruct (activeBan (bannedUntil t) ip now) eqn:Hban.
  { rewrite Record404_banned by done. cbn [fst snd].
    by rewrite IsBanned_not_whitelisted. }
  rewrite (Record404_records t ip now Hwl Hban). cbv zeta.
  case_bool_decide; cbn [fst snd]; rewrite IsBanned_not_whitelisted by done;
    cbn [fst bannedUntil set_bannedUntil set_counts]; [|done].
  unfold activeBan. rewrite lookup_insert_eq. apply After_true. lia.
Qed.

Lemma Record404_answers_ban_state_witness :
  let t := snd (reportAll "10.0.0.1" [0; 1; 2] (NewIP404Tracker 3 60 86400)) in
  0 < banDuration t ∧
  fst (Record404 "10.0.0.1" 3 t) = true ∧
  fst (IsBanned "10.0.0.1" 3 (snd (Record404 "10.0.0.1" 3 t))) = true.
Proof.
  intros t.
  assert (0 < banDuration t) as Hpos by reflexivity.
  refine (conj Hpos (conj eq_refl _)).
  rewrite (Record404_answers_ban_state t "10.0.0.1" 3 Hpos). reflexivity.
Defined.

(** Without that, the answer and the ban state come apart: a tracker with ban
    duration zero answers [true] and has banned nobody. *)
Example Record404_zero_ban_duration :
  let t := NewIP404Tracker 0 60 0 in
  fst (Record404 "10.0.0.1" 5 t) = true
  ∧ fst (IsBanned "10.0.0.1" 5 (snd (Record404 "10.0.0.1" 5 t))) = false.
Proof. split; reflexivity. Qed.

(** ** Requests through the middleware, end to end *)

Lemma allInWindow_app_l (w : Z) (l1 l2 : list Z) :
  allInWindow w (l1 ++ l2) = true → allInWindow w l1 = true.
Proof.
  induction l1 as [|a l1 IH]; [done|].
  simpl. rewrite !andb_true_iff, forallb_app, andb_true_iff.
  intros [[Ha _] Hl]. split; [done|by apply IH].
Qed.

Lemma gateAll_app (next : Context → State Context) (ip : string)
    (l1 l2 : list Clock) (c : Context) (t : IP404Tracker) :
  gateAll next ip (l1 ++ l2) c t =
    let '(rs1, t1) := gateAll next ip l1 c t in
    let '(rs2, t2) := gateAll next ip l2 c t1 in
    (rs1 ++ rs2, t2).
Proof.
  revert t. induction l1 as [|clk l1 IH]; intros t; simpl.
  - run_state. by destruct (gateAll next ip l2 c t).
  - cbv [mbind mret State_bind State_ret].
    destruct (Middleware next ip clk c t) as [r t0].
    rewrite IH. destruct (gateAll next ip l1 c t0) as [rs1 t1].
    by destruct (gateAll next ip l2 c t1).
Qed.

(** An identifier without a ban record whose requests all end in the chain's
    404, tolerated: the middleware hands back the chain's answer and records
    the offense. *)
Lemma gateAll_tolerated (r c : Context) (ip : string) (clks : list Clock)
    (t : IP404Tracker) :
  status r = 404 →
  fst (IsWhitelisted ip t) = false →
  bannedUntil t !! ip = None →
  allInWindow (window t) (offenses t ip ++ map atRecord clks) = true →
  Z.of_nat (length (offenses t ip ++ map atRecord clks)) ≤ threshold t →
  ∃ t', gateAll (answer r) ip clks c t = (replicate (length clks) r, t')
      ∧ offenses t' ip = offenses t ip ++ map atRecord clks
      ∧ bannedUntil t' = bannedUntil t
      ∧ whitelist t' = whitelist t
      ∧ threshold t' = threshold t
      ∧ window t' = window t
      ∧ banDuration t' = banDuration t.
Proof.
  intros Hr. revert t. induction clks as [|clk rest IH]; intros t Hwl Hnone Hwin Hlen.
  - exists t. simpl. by rewrite app_nil_r.
  - cbn [map] in *.
    assert (allInWindow (window t) (offenses t ip ++ [atRecord clk]) = true) as Hwin1.
    { apply (allInWindow_app_l _ _ (map atRecord rest)).
      by rewrite <- app_assoc. }
    assert (Z.of_nat (length (offenses t ip ++ [atRecord clk])) ≤ threshold t) as Hlen1.
    { rewrite !length_app in *. simpl in *. lia. }
    assert (Forall (λ now, activeBan (bannedUntil t) ip now = false) [atRecord clk])
      as Hban.
    { apply Forall_singleton. unfold activeBan. by rewrite Hnone. }
    destruct (reportAll_tolerated ip [atRecord clk] t Hwl Hban Hwin1 Hlen1)
      as (t1 & Hrun & Hoff & Hb & Hw & Hth & Hwi & Hbd).
    assert (snd (Record404 ip (atRecord clk) t) = t1) as Hstep.
    { cbn [reportAll] in Hrun. cbv [mbind mret State_bind State_ret] in Hrun.
      destruct (Record404 ip (atRecord clk) t) as [b t0]. by injection Hrun as _ ->. }
    destruct (IH t1) as (t' & Hrun' & Hoff' & Hb' & Hw' & Hth' & Hwi' & Hbd').
    + unfold IsWhitelisted, gets in *. cbn [fst] in *. by rewrite Hw.
    + by rewrite Hb.
    + rewrite Hoff, Hwi, <- app_assoc. done.
    + rewrite Hoff, Hth, <- app_assoc. done.
    + exists t'. cbn [gateAll]. cbv [mbind mret State_bind State_ret].
      rewrite Middleware_answer, IsBanned_not_whitelisted by done.
      cbn [fst]. unfold activeBan at 1. rewrite Hnone.
      rewrite decide_True by done. rewrite Hstep, Hrun'.
      rewrite Hoff', Hoff, <- app_assoc.
      repeat split; congruence.
Qed.

(** X9. The README's first test, for any threshold. An identifier with no
    ban record keeps requesting pages the router answers with 404, all
    inside the window. Up to and including the request that brings its
    offenses to [threshold + 1], the middleware hands back the router's own
    answer; that request writes the ban, [GetBannedIPs] then lists the
    identifier, and every request checked before the expiry gets the aborted
    404 from the gate instead, with the same status. *)
Theorem Middleware_shadow_bans (r c : Context) (ip : string)
    (pre : list Clock) (last : Clock) (t : IP404Tracker) :
  status r = 404 →
  fst (IsWhitelisted ip t) = false →
  bannedUntil t !! ip = None →
  allInWindow (window t)
    (offenses t ip ++ map atRecord (pre ++ [last])) = true →
  Z.of_nat (length (offenses t ip ++ map atRecord (pre ++ [last])))
  = threshold t + 1 →
  let expiry := atRecord last + banDuration t in
  let t' := snd (gateAll (answer r) ip (pre ++ [last]) c t) in
  fst (gateAll (answer r) ip (pre ++ [last]) c t)
  = replicate (length (pre ++ [last])) r
  ∧ bannedUntil t' !! ip = Some expiry
  ∧ (∀ now, now < expiry → fst (GetBannedIPs now t') !! ip = Some expiry)
  ∧ (∀ clk c', atCheck clk < expiry →
       fst (Middleware (answer r) ip clk c' t') = mkContext 404 true
       ∧ status (fst (Middleware (answer r) ip clk c' t')) = status r).
Proof.
  intros Hr Hwl Hnone Hwin Hlen expiry t'.
  rewrite map_app in Hwin, Hlen. cbn [map] in Hwin, Hlen.
  assert (allInWindow (window t) (offenses t ip ++ map atRecord pre) = true) as Hwin0.
  { apply (allInWindow_app_l _ _ [atRecord last]). by rewrite <- app_assoc. }
  assert (Z.of_nat (length (offenses t ip ++ map atRecord pre)) ≤ threshold t) as Hlen0.
  { rewrite !length_app in *. simpl in *. lia. }
  destruct (gateAll_tolerated r c ip pre t Hr Hwl Hnone Hwin0 Hlen0)
    as (t1 & Hrun & Hoff & Hb & Hw & Hth & Hwi & Hbd).
  assert (fst (IsWhitelisted ip t1) = false) as Hwl1.
  { unfold IsWhitelisted, gets in *. cbn [fst] in *. by rewrite Hw. }
  assert (activeBan (bannedUntil t1) ip (atRecord last) = false) as Hban1.
  { unfold activeBan. by rewrite Hb, Hnone. }
  assert (recentAt t1 ip (atRecord last)
          = offenses t ip ++ map atRecord pre ++ [atRecord last]) as Hrecent.
  { unfold recentAt. rewrite Hoff.
    rewrite window_all_kept, <- app_assoc; [done|]. rewrite Hwi.
    apply (allInWindow_before _ _ _ []). by rewrite <- app_assoc. }
  assert (gateAll (answer r) ip (pre ++ [last]) c t
    = (replicate (length (pre ++ [last])) r,
       set_bannedUntil (<[ip := expiry]>)
         (set_counts (<[ip := recentAt t1 ip (atRecord last)]>) t1))) as Hall.
  { rewrite gateAll_app, Hrun. cbn [gateAll].
    cbv [mbind mret State_bind State_ret].
    rewrite Middleware_answer, IsBanned_not_whitelisted by done.
    cbn [fst]. unfold activeBan at 1. rewrite Hb, Hnone.
    rewrite decide_True by done.
    rewrite (Record404_records t1 ip (atRecord last) Hwl1 Hban1). cbv zeta.
    rewrite bool_decide_eq_true_2.
    2:{ rewrite Hrecent, Hth. lia. }
    cbn [snd]. rewrite Hbd. fold expiry.
    rewrite length_app. cbn [length]. rewrite replicate_add. done. }
  subst t'. rewrite Hall. cbn [fst snd].
  set (t2 := set_bannedUntil _ _).
  assert (bannedUntil t2 !! ip = Some expiry) as Hexp.
  { subst t2. cbn [bannedUntil set_bannedUntil]. by rewrite lookup_insert_eq. }
  assert (banDuration t2 = banDuration t) as Hbd2 by (subst t2; done).
  split; [done|]. split; [done|]. split.
  - intros now Hnow. by apply GetBannedIPs_lookup.
  - intros clk c' Hclk.
    rewrite (Middleware_gate_step (answer r) ip clk c' t2 expiry); try done.
Qed.

Lemma Middleware_shadow_bans_witness :
  let t := NewIP404Tracker 3 60 86400 in
  let r := mkContext 404 false in
  let pre := [mkClock 0 0 0; mkClock 1 1 1; mkClock 2 2 2] in
  let last := mkClock 3 3 3 in
  let t' := snd (gateAll (answer r) "10.0.0.1" (pre ++ [last]) freshContext t) in
  status r = 404 ∧
  fst (IsWhitelisted "10.0.0.1" t) = false ∧
  bannedUntil t !! "10.0.0.1"%string = None ∧
  fst (gateAll (answer r) "10.0.0.1" (pre ++ [last]) freshContext t) = [r; r; r; r] ∧
  bannedUntil t' !! "10.0.0.1"%string = Some 86403 ∧
  fst (Middleware (answer r) "10.0.0.1" (mkClock 4 4 4) freshContext t')
  = mkContext 404 true.
Proof.
  intros t r pre last t'.
  destruct (Middleware_shadow_bans r freshContext "10.0.0.1" pre last t
              eq_refl eq_refl eq_refl eq_refl eq_refl) as (Hrs & Hexp & _ & Hgate).
  destruct (Hgate (mkClock 4 4 4) freshContext eq_refl) as [Hnext _].
  exact (conj eq_refl (conj eq_refl (conj eq_refl (conj Hrs (conj Hexp Hnext))))).
Defined.

(** ** The middleware of 404blocker.go: a ban of fixed length *)

(** X10. Under the middleware of 404blocker.go a banned identifier's
    requests get the aborted 404 and leave the tracker exactly as it is,
    however many it makes before the expiry: the ban is not extended and no
    tally is kept. A request checked at the expiry or later is handed to the
    rest of the chain again. *)
Theorem Middleware0_ban_runs_out
    (next : Context → State Context) (ip : string) (clks : list Clock)
    (c : Context) (t : IP404Tracker) (expiry : Z) :
  fst (IsWhitelisted ip t) = false →
  bannedUntil t !! ip = Some expiry →
  Forall (λ clk, atCheck clk < expiry) clks →
  gateAll0 next ip clks c t = (replicate (length clks) (mkContext 404 true), t)
  ∧ (∀ clk, expiry ≤ atCheck clk →
       fst (Middleware0 next ip clk c t) = fst (next c t)).
Proof.
  intros Hwl Hexp Hall. split.
  - induction Hall as [|clk rest Hclk _ IH]; [done|].
    cbn [gateAll0]. cbv [mbind mret State_bind State_ret].
    rewrite Middleware0_gate_leaves_tracker.
    + by rewrite IH.
    + rewrite IsBanned_not_whitelisted by done. cbn [fst].
      unfold activeBan. rewrite Hexp. by apply After_true.
  - intros clk Hclk. unfold Middleware0. cbv [mbind mret State_bind State_ret].
    rewrite IsBanned_not_whitelisted by done.
    unfold activeBan. rewrite Hexp. rewrite (proj2 (After_false _ _) Hclk).
    destruct (next c t) as [c' t1]. cbn [fst].
    case_decide; [|done]. by destruct (Record404 ip (atRecord clk) t1).
Qed.

Lemma Middleware0_ban_runs_out_witness :
  let t := snd (reportAll "10.0.0.1" [0; 1; 2; 3] (NewIP404Tracker 3 60 86400)) in
  let ok := mkContext 200 false in
  let clks := [mkClock 10 10 10; mkClock 86000 86000 86000] in
  fst (IsWhitelisted "10.0.0.1" t) = false ∧
  bannedUntil t !! "10.0.0.1"%string = Some 86403 ∧
  Forall (λ clk, atCheck clk < 86403) clks ∧
  gateAll0 (answer ok) "10.0.0.1" clks freshContext t
  = ([mkContext 404 true; mkContext 404 true], t) ∧
  fst (Middleware0 (answer ok) "10.0.0.1" (mkClock 86403 86403 86403) freshContext t)
  = ok.
Proof.
  intros t ok clks.
  assert (Forall (λ clk, atCheck clk < 86403) clks) as Hall
    by (repeat constructor).
  destruct (Middleware0_ban_runs_out (answer ok) "10.0.0.1" clks freshContext t
              86403 eq_refl eq_refl Hall) as [Hrun Hout].
  refine (conj eq_refl (conj eq_refl (conj Hall (conj Hrun _)))).
  apply (Hout (mkClock 86403 86403 86403)). cbn. lia.
Defined.

(** ** Whitelisted clients *)

(** X11. A whitelisted client passes through both middlewares untouched:
    whatever the rest of the chain answers, a 404 included, is the answer,
    and the tracker is as the chain left it, provided the chain did not take
    the client off the whitelist. *)
Theorem Middleware_whitelisted_passes
    (next : Context → State Context) (ip : string) (clk : Clock)
    (c : Context) (t : IP404Tracker) :
  fst (IsWhitelisted ip t) = true →
  fst (IsWhitelisted ip (snd (next c t))) = true →
  Middleware next ip clk c t = next c t
  ∧ Middleware0 next ip clk c t = next c t.
Proof.
  intros Hwl Hwl'. unfold Middleware, Middleware0.
  cbv [mbind mret State_bind State_ret].
  rewrite IsBanned_whitelisted by done.
  destruct (next c t) as [c' t1]. cbn [snd] in Hwl'.
  case_decide; [|done]. by rewrite Record404_whitelisted.
Qed.

Lemma Middleware_whitelisted_passes_witness :
  let t := NewIP404Tracker 0 60 86400 in
  let r := mkContext 404 false in
  fst (IsWhitelisted "1.1.1.1" t) = true ∧
  Middleware (answer r) "1.1.1.1" (mkClock 0 0 0) freshContext t = (r, t) ∧
  Middleware (answer r) "10.0.0.1" (mkClock 0 0 0) freshContext t ≠ (r, t).
Proof.
  intros t r.
  refine (conj eq_refl (conj
    (proj1 (Middleware_whitelisted_passes (answer r) "1.1.1.1" (mkClock 0 0 0)
              freshContext t eq_refl eq_refl)) _)).
  vm_compute. discriminate.
Defined.

(** ** The sweep and later calls *)

Lemma filter_window_absorb (a b : Z) (l : list Z) :
  a ≤ b →
  filter (λ ts, b < ts) (filter (λ ts, a < ts) l) = filter (λ ts, b < ts) l.
Proof.
  intros Hab. apply list_filter_filter_l. intros x. lia.
Qed.

Lemma filter_window_comm (a b : Z) (l : list Z) :
  filter (λ ts, b < ts) (filter (λ ts, a < ts) l)
  = filter (λ ts, a < ts) (filter (λ ts, b < ts) l).
Proof.
  rewrite !list_filter_filter. apply list_filter_iff. intros x. lia.
Qed.

Lemma agreeFrom_recent (now now' : Z) (t1 t2 : IP404Tracker) (ip : string) :
  agreeFrom now t1 t2 → now ≤ now' →
  filter (λ ts, windowStart t1 now' < ts) (offenses t1 ip)
  = filter (λ ts, windowStart t1 now' < ts) (offenses t2 ip).
Proof.
  intros (_ & _ & _ & _ & _ & Hoff & _) Hle.
  pose proof (windowStart_shift t1 now now') as Hshift.
  rewrite <- (filter_window_absorb (windowStart t1 now) (windowStart t1 now')
                (offenses t1 ip)) by lia.
  rewrite <- (filter_window_absorb (windowStart t1 now) (windowStart t1 now')
                (offenses t2 ip)) by lia.
  by rewrite Hoff.
Qed.

Lemma agreeFrom_recentAt (now now' : Z) (t1 t2 : IP404Tracker) (ip : string) :
  agreeFrom now t1 t2 → now ≤ now' → recentAt t1 ip now' = recentAt t2 ip now'.
Proof.
  intros Hag Hle. unfold recentAt.
  rewrite (agreeFrom_recent now now' t1 t2 ip Hag Hle).
  destruct Hag as (_ & _ & _ & Hwi & _).
  by rewrite (windowStart_window t1 t2 now' Hwi).
Qed.

Lemma agreeFrom_activeBan (now now' : Z) (t1 t2 : IP404Tracker) (ip : string) :
  agreeFrom now t1 t2 → now ≤ now' →
  activeBan (bannedUntil t1) ip now' = activeBan (bannedUntil t2) ip now'.
Proof.
  intros (_ & _ & _ & _ & _ & _ & Hban) Hle. unfold activeBan.
  destruct (bannedUntil t1 !! ip) as [e1|] eqn:E1;
    destruct (bannedUntil t2 !! ip) as [e2|] eqn:E2.
  - destruct (After e1 now') eqn:A1.
    + apply After_true in A1.
      apply (Hban ip e1) in E1; [|lia]. simplify_eq.
      symmetry. by apply After_true.
    + destruct (After e2 now') eqn:A2; [|done]. apply After_true in A2.
      apply (Hban ip e2) in E2; [|lia]. simplify_eq.
      apply After_false in A1. lia.
  - destruct (After e1 now') eqn:A1; [|done]. apply After_true in A1.
    apply (Hban ip e1) in E1; [|lia]. congruence.
  - destruct (After e2 now') eqn:A2; [|done]. apply After_true in A2.
    apply (Hban ip e2) in E2; [|lia]. congruence.
  - done.
Qed.

Lemma agreeFrom_IsWhitelisted (now : Z) (t1 t2 : IP404Tracker) (ip : string) :
  agreeFrom now t1 t2 → fst (IsWhitelisted ip t1) = fst (IsWhitelisted ip t2).
Proof.
  intros (Hw & _). unfold IsWhitelisted, gets. cbn [fst]. by rewrite Hw.
Qed.

Lemma agreeFrom_IsBanned (now now' : Z) (t1 t2 : IP404Tracker) (ip : string) :
  agreeFrom now t1 t2 → now ≤ now' →
  fst (IsBanned ip now' t1) = fst (IsBanned ip now' t2).
Proof.
  intros Hag Hle.
  pose proof (agreeFrom_IsWhitelisted now t1 t2 ip Hag) as Hwl.
  destruct (fst (IsWhitelisted ip t2)) eqn:E.
  - by rewrite !IsBanned_whitelisted.
  - rewrite !IsBanned_not_whitelisted by done. cbn [fst].
    by apply (agreeFrom_activeBan now).
Qed.

(** Writing the same window, or the same ban, on both sides keeps the
    agreement. *)
Lemma agreeFrom_set_counts (now : Z) (t1 t2 : IP404Tracker) (ip : string)
    (l : list Z) :
  agreeFrom now t1 t2 →
  agreeFrom now (set_counts (<[ip := l]>) t1) (set_counts (<[ip := l]>) t2).
Proof.
  intros (Hw & Hn & Hth & Hwi & Hbd & Hoff & Hban).
  do 5 (split; [done|]). split; [|done].
  intros k. unfold offenses. cbn [counts set_counts window].
  destruct (decide (ip = k)) as [->|Hne].
  - by rewrite !lookup_insert_eq.
  - rewrite !lookup_insert_ne by done. apply Hoff.
Qed.

Lemma agreeFrom_set_bannedUntil (now : Z) (t1 t2 : IP404Tracker)
    (f : gmap string Z → gmap string Z) :
  (∀ m1 m2 k (e : Z),
     (m1 !! k = Some e ↔ m2 !! k = Some e) →
     (f m1 !! k = Some e ↔ f m2 !! k = Some e)) →
  agreeFrom now t1 t2 →
  agreeFrom now (set_bannedUntil f t1) (set_bannedUntil f t2).
Proof.
  intros Hf (Hw & Hn & Hth & Hwi & Hbd & Hoff & Hban).
  do 6 (split; [done|]).
  intros k e He. cbn [bannedUntil set_bannedUntil]. by apply Hf, Hban.
Qed.

Lemma insert_agrees (ip : string) (x : Z) (m1 m2 : gmap string Z)
    (k : string) (e : Z) :
  (m1 !! k = Some e ↔ m2 !! k = Some e) →
  (<[ip := x]> m1 !! k = Some e ↔ <[ip := x]> m2 !! k = Some e).
Proof.
  intros H. destruct (decide (ip = k)) as [->|Hne].
  - by rewrite !lookup_insert_eq.
  - by rewrite !lookup_insert_ne.
Qed.

Lemma delete_agrees (ip : string) (m1 m2 : gmap string Z) (k : string) (e : Z) :
  (m1 !! k = Some e ↔ m2 !! k = Some e) →
  (delete ip m1 !! k = Some e ↔ delete ip m2 !! k = Some e).
Proof.
  intros H. destruct (decide (ip = k)) as [->|Hne].
  - by rewrite !lookup_delete_eq.
  - by rewrite !lookup_delete_ne.
Qed.


Lemma agreeFrom_Record404 (now now' : Z) (t1 t2 : IP404Tracker) (ip : string) :
  agreeFrom now t1 t2 → now ≤ now' →
  fst (Record404 ip now' t1) = fst (Record404 ip now' t2)
  ∧ agreeFrom now (snd (Record404 ip now' t1)) (snd (Record404 ip now' t2)).
Proof.
  intros Hag Hle.
  pose proof (agreeFrom_IsWhitelisted now t1 t2 ip Hag) as Hwl.
  pose proof (agreeFrom_activeBan now now' t1 t2 ip Hag Hle) as Hban.
  pose proof (agreeFrom_recentAt now now' t1 t2 ip Hag Hle) as Hrec.
  destruct (fst (IsWhitelisted ip t2)) eqn:E2.
  { by rewrite !Record404_whitelisted. }
  destruct (activeBan (bannedUntil t2) ip now') eqn:B2.
  { by rewrite !Record404_banned. }
  rewrite (Record404_records t1 ip now' Hwl Hban).
  rewrite (Record404_records t2 ip now' E2 B2). cbv zeta.
  rewrite Hrec.
  destruct Hag as (Hw & Hn & Hth & Hwi & Hbd & Hoff & Hb).
  rewrite Hth, Hbd.
  assert (agreeFrom now t1 t2) as Hag by done.
  case_bool_decide; cbn [fst snd]; (split; [done|]).
  - apply agreeFrom_set_bannedUntil; [apply insert_agrees|].
    by apply agreeFrom_set_counts.
  - by apply agreeFrom_set_counts.
Qed.

Lemma agreeFrom_ExtendBan (now now' : Z) (t1 t2 : IP404Tracker) (ip : string) :
  agreeFrom now t1 t2 →
  agreeFrom now (snd (ExtendBan ip now' t1)) (snd (ExtendBan ip now' t2)).
Proof.
  intros Hag.
  pose proof (agreeFrom_IsWhitelisted now t1 t2 ip Hag) as Hwl.
  unfold IsWhitelisted, gets in Hwl. cbn [fst] in Hwl.
  unfold ExtendBan. run_state. rewrite Hwl.
  destruct (default false (whitelist t2 !! ip)); [done|]. cbn [snd].
  destruct Hag as (Hw & Hn & Hth & Hwi & Hbd & Hoff & Hb). rewrite Hbd.
  apply agreeFrom_set_bannedUntil; [apply insert_agrees|done].
Qed.

Lemma agreeFrom_BannedRequestCounter (now : Z) (t1 t2 : IP404Tracker) (ip : string) :
  agreeFrom now t1 t2 →
  agreeFrom now (snd (BannedRequestCounter ip t1)) (snd (BannedRequestCounter ip t2)).
Proof.
  intros (Hw & Hn & Hth & Hwi & Hbd & Hoff & Hb).
  unfold BannedRequestCounter, modify. cbn [snd].
  split; [done|]. split; [|done].
  cbn [bannedRequest set_bannedRequest]. by rewrite Hn.
Qed.

Lemma cleanup_bans_Some (t : IP404Tracker) (now : Z) (ip : string) (e : Z) :
  bannedUntil (snd (cleanup now t)) !! ip = Some e
  ↔ bannedUntil t !! ip = Some e ∧ now ≤ e.
Proof.
  rewrite cleanup_bans_lookup. destruct (bannedUntil t !! ip) as [e0|].
  - destruct (Before e0 now) eqn:E.
    + apply Before_true in E. split; [done|]. intros [[= ->] ?]. lia.
    + unfold Before in E. apply bool_decide_eq_false in E.
      split; [intros [= ->]; split; [done|lia] | by intros [? _]].
  - split; [done | by intros [? _]].
Qed.

Lemma agreeFrom_cleanup (now now' : Z) (t1 t2 : IP404Tracker) :
  agreeFrom now t1 t2 →
  agreeFrom now (snd (cleanup now' t1)) (snd (cleanup now' t2)).
Proof.
  intros (Hw & Hn & Hth & Hwi & Hbd & Hoff & Hb).
  destruct (cleanup_frame t1 now') as (Ew1 & En1 & Eth1 & Ewi1 & Ebd1).
  destruct (cleanup_frame t2 now') as (Ew2 & En2 & Eth2 & Ewi2 & Ebd2).
  cbv zeta in *.
  split; [congruence|]. split; [congruence|]. split; [congruence|].
  split; [congruence|]. split; [congruence|]. split.
  - intros ip. rewrite !cleanup_offenses.
    rewrite (windowStart_window (snd (cleanup now' t1)) t1 now Ewi1).
    rewrite <- (windowStart_window t1 t2 now' Hwi).
    rewrite !(filter_window_comm (windowStart t1 now') (windowStart t1 now)).
    by rewrite Hoff.
  - intros ip e He. rewrite !cleanup_bans_Some.
    by rewrite (Hb ip e He).
Qed.

Lemma agreeFrom_GetBannedIPs (now now' : Z) (t1 t2 : IP404Tracker) :
  agreeFrom now t1 t2 → now ≤ now' →
  fst (GetBannedIPs now' t1) = fst (GetBannedIPs now' t2).
Proof.
  intros (_ & _ & _ & _ & _ & _ & Hb) Hle.
  apply map_eq. intros ip. apply option_eq. intros e.
  rewrite !GetBannedIPs_lookup. split; intros [He Hlt]; (split; [|done]).
  - apply Hb; [lia|done].
  - apply Hb; [lia|done].
Qed.

Lemma agreeFrom_after_cleanup (t : IP404Tracker) (now : Z) :
  agreeFrom now (snd (cleanup now t)) t.
Proof.
  destruct (cleanup_frame t now) as (Ew & En & Eth & Ewi & Ebd). cbv zeta in *.
  do 5 (split; [done|]). split.
  - intros ip. rewrite cleanup_offenses.
    rewrite (windowStart_window (snd (cleanup now t)) t now Ewi).
    by rewrite filter_window_absorb.
  - intros ip e He. rewrite cleanup_bans_Some. tauto.
Qed.

Lemma agreeFrom_step (now : Z) (call : Call) (t1 t2 : IP404Tracker) :
  notBefore now call = true →
  agreeFrom now t1 t2 →
  result call t1 = result call t2 ∧ agreeFrom now (exec call t1) (exec call t2).
Proof.
  intros Hlate Hag.
  destruct call as [ip|ip|ip| |ip at_|ip at_|ip|at_|ip|ip at_|at_|r ip clk|r ip clk];
    cbn [notBefore] in Hlate;
    rewrite ?andb_true_iff, ?bool_decide_eq_true in Hlate.
  - split; [done|]. destruct Hag as (Hw & Hrest). split; [|done].
    cbn. by rewrite Hw.
  - split; [done|]. destruct Hag as (Hw & Hrest). split; [|done].
    cbn. by rewrite Hw.
  - split; [|done]. cbn [result]. by rewrite (agreeFrom_IsWhitelisted now t1 t2).
  - split; [|done]. cbn [result]. unfold GetWhitelist, gets. cbn [fst].
    destruct Hag as (Hw & Hrest). by rewrite Hw.
  - destruct (agreeFrom_Record404 now at_ t1 t2 ip Hag Hlate) as [Hres Hag'].
    split; [|done]. cbn [result]. by rewrite Hres.
  - split.
    + cbn [result]. by rewrite (agreeFrom_IsBanned now at_ t1 t2).
    + cbn [exec]. by rewrite !IsBanned_state.
  - split; [done|]. cbn [exec]. unfold UnbanIP, modify. cbn [snd].
    apply agreeFrom_set_bannedUntil; [apply delete_agrees|done].
  - split; [|done]. cbn [result]. by rewrite (agreeFrom_GetBannedIPs now at_ t1 t2).
  - split; [done|]. by apply agreeFrom_BannedRequestCounter.
  - split; [done|]. by apply agreeFrom_ExtendBan.
  - split; [done|]. by apply agreeFrom_cleanup.
  - destruct Hlate as [[Hc He] Hr].
    pose proof (agreeFrom_IsBanned now (atCheck clk) t1 t2 ip Hag Hc) as Hb.
    split.
    + cbn [result]. rewrite !Middleware_answer, Hb.
      destruct (fst (IsBanned ip (atCheck clk) t2)); [done|]. by case_decide.
    + rewrite !exec_request, Hb.
      destruct (fst (IsBanned ip (atCheck clk) t2)).
      * cbn [execAll foldl exec].
        by apply agreeFrom_BannedRequestCounter, agreeFrom_ExtendBan.
      * case_decide; [|done]. by apply agreeFrom_Record404.
  - destruct Hlate as [[Hc He] Hr].
    pose proof (agreeFrom_IsBanned now (atCheck clk) t1 t2 ip Hag Hc) as Hb.
    split.
    + cbn [result]. rewrite !Middleware0_answer, Hb.
      destruct (fst (IsBanned ip (atCheck clk) t2)); [done|]. by case_decide.
    + rewrite !exec_request0, Hb.
      destruct (fst (IsBanned ip (atCheck clk) t2)); [done|].
      case_decide; [|done]. by apply agreeFrom_Record404.
Qed.

Lemma agreeFrom_step_same (now : Z) (call1 call2 : Call) (t1 t2 : IP404Tracker) :
  sameCall call1 call2 →
  notBefore now call1 = true →
  agreeFrom now t1 t2 →
  sameResult (result call1 t1) (result call2 t2)
  ∧ agreeFrom now (exec call1 t1) (exec call2 t2).
Proof.
  intros [->|(order1 & order2 & -> & ->)] Hlate Hag.
  - destruct (agreeFrom_step now call2 t1 t2 Hlate Hag) as [Hres Hag'].
    split; [by left|done].
  - split; [|done]. right. cbn [result]. eexists _, _.
    split; [done|]. split; [done|].
    rewrite !GetWhitelist_Permutation.
    destruct Hag as (Hw & _). by rewrite Hw.
Qed.

Lemma agreeFrom_results (now : Z) (calls1 calls2 : list Call)
    (t1 t2 : IP404Tracker) :
  Forall2 sameCall calls1 calls2 →
  forallb (notBefore now) calls1 = true →
  agreeFrom now t1 t2 →
  Forall2 sameResult (results calls1 t1) (results calls2 t2).
Proof.
  intros Hsame. revert t1 t2.
  induction Hsame as [|call1 call2 rest1 rest2 Hcall Hrest IH];
    intros t1 t2 Hlate Hag; [constructor|].
  cbn [forallb] in Hlate. apply andb_true_iff in Hlate as [Hlate1 Hlate2].
  destruct (agreeFrom_step_same now call1 call2 t1 t2 Hcall Hlate1 Hag)
    as [Hres Hag'].
  cbn [results]. constructor; [done|]. by apply IH.
Qed.

(** X12. The sweep is invisible to every later call. Take any history of
    calls whose clock readings are [now] or later, and run it twice, once
    after [cleanup] at [now] and once without it, the listings of the
    whitelist meeting the map in whatever order each time: each call hands
    back the same result in both runs (answers of [IsBanned], [Record404]
    and [IsWhitelisted], the banned list, the responses of both
    middlewares), the whitelist listings being the same up to their order. *)
Theorem cleanup_never_changes_a_result
    (t : IP404Tracker) (now : Z) (calls calls' : list Call) :
  Forall2 sameCall calls calls' →
  forallb (notBefore now) calls = true →
  Forall2 sameResult (results calls (snd (cleanup now t))) (results calls' t).
Proof.
  intros Hsame Hlate. apply (agreeFrom_results now); [done|done|].
  apply agreeFrom_after_cleanup.
Qed.

Lemma cleanup_never_changes_a_result_witness :
  let t := set_whitelist (<["10.0.0.9"%string := true]>)
           (set_bannedUntil (<["10.0.0.3"%string := 150]>)
           (set_bannedUntil (<["10.0.0.2"%string := 99]>)
           (set_counts (<["10.0.0.1"%string := [0; 50; 60; 70]]>)
             (NewIP404Tracker 3 60 86400)))) in
  let history := λ order,
    [CallIsBanned "10.0.0.3" 100;
     CallRecord404 "10.0.0.1" 101;
     CallGetWhitelist order;
     CallRecord404 "10.0.0.1" 102;
     CallGetBannedIPs 103;
     CallRequest (mkContext 404 false) "10.0.0.2" (mkClock 104 104 104)] in
  Forall2 sameCall (history storedOrder) (history reversedOrder) ∧
  forallb (notBefore 100) (history storedOrder) = true ∧
  snd (cleanup 100 t) ≠ t ∧
  fst (GetWhitelist storedOrder t) ≠ fst (GetWhitelist reversedOrder t) ∧
  Forall2 sameResult (results (history storedOrder) (snd (cleanup 100 t)))
                     (results (history reversedOrder) t).
Proof.
  intros t history.
  assert (Forall2 sameCall (history storedOrder) (history reversedOrder)) as Hsame.
  { repeat (constructor; [first [by left | right; by eexists _, _]|]).
    constructor. }
  refine (conj Hsame (conj eq_refl (conj _ (conj _
    (cleanup_never_changes_a_result t 100 _ _ Hsame eq_refl))))).
  - intros H. apply (f_equal (λ t, bannedUntil t !! "10.0.0.2"%string)) in H.
    vm_compute in H. discriminate.
  - vm_compute. discriminate.
Defined.

Lemma tracker_eq (t1 t2 : IP404Tracker) :
  counts t1 = counts t2 → bannedUntil t1 = bannedUntil t2 →
  whitelist t1 = whitelist t2 → bannedRequest t1 = bannedRequest t2 →
  threshold t1 = threshold t2 → window t1 = window t2 →
  banDuration t1 = banDuration t2 → t1 = t2.
Proof. destruct t1, t2. cbn. by intros -> -> -> -> -> -> ->. Qed.

(** X13. A sweep absorbs any earlier one: sweeping at [now] and again at a
    later [now'] leaves the tracker a single sweep at [now'] leaves. In
    particular sweeping twice at the same instant is sweeping once. *)
Theorem cleanup_absorbs_earlier_sweep (t : IP404Tracker) (now now' : Z) :
  now ≤ now' →
  snd (cleanup now' (snd (cleanup now t))) = snd (cleanup now' t).
Proof.
  intros Hle.
  destruct (cleanup_frame t now) as (Ew & En & Eth & Ewi & Ebd).
  destruct (cleanup_frame (snd (cleanup now t)) now') as (Ew1 & En1 & Eth1 & Ewi1 & Ebd1).
  destruct (cleanup_frame t now') as (Ew2 & En2 & Eth2 & Ewi2 & Ebd2).
  cbv zeta in *. apply tracker_eq; try congruence.
  - pose proof (windowStart_shift t now now') as Hshift.
    apply map_eq. intros ip. rewrite !cleanup_counts_lookup.
    rewrite (windowStart_window (snd (cleanup now t)) t now' Ewi).
    destruct (counts t !! ip) as [l|]; [|done]. cbn.
    destruct (decide (filter (λ ts, windowStart t now < ts) l = [])) as [Hnil|Hne]; cbn.
    + rewrite <- (filter_window_absorb (windowStart t now) (windowStart t now') l)
        by lia.
      rewrite Hnil. by rewrite decide_True.
    + by rewrite filter_window_absorb by lia.
  - apply map_eq. intros ip. apply option_eq. intros e.
    rewrite !cleanup_bans_Some. split; [|intros [? ?]; repeat split; [done|lia|done]].
    by intros [[? ?] ?].
Qed.

Lemma cleanup_absorbs_earlier_sweep_witness :
  let t := set_bannedUntil (<["10.0.0.2"%string := 99]>)
           (set_counts (<["10.0.0.1"%string := [0; 50; 60; 70]]>)
             (NewIP404Tracker 3 60 86400)) in
  100 ≤ 125 ∧
  snd (cleanup 125 (snd (cleanup 100 t))) = snd (cleanup 125 t) ∧
  snd (cleanup 100 (snd (cleanup 100 t))) = snd (cleanup 100 t) ∧
  offenses (snd (cleanup 125 t)) "10.0.0.1" = [70].
Proof.
  intros t.
  assert (100 ≤ 125) as H1 by lia. assert (100 ≤ 100) as H2 by lia.
  exact (conj H1 (conj (cleanup_absorbs_earlier_sweep t 100 125 H1)
          (conj (cleanup_absorbs_earlier_sweep t 100 100 H2) eq_refl))).
Defined.

(** ** A new tracker *)

Lemma whitelist_seed_lookup (l : list string) (w : gmap string bool) (ip : string) :
  foldl (λ w ip, <[ip := true]> w) w l !! ip
  = if decide (ip ∈ l) then Some true else w !! ip.
Proof.
  revert w. induction l as [|k l IH]; intros w; [done|].
  cbn [foldl]. rewrite IH.
  destruct (decide (ip ∈ l)) as [Hin|Hnin].
  - rewrite decide_True; [done|by right].
  - destruct (decide (k = ip)) as [->|Hne].
    + rewrite lookup_insert_eq. rewrite decide_True; [done|by left].
    + rewrite lookup_insert_ne by done.
      rewrite decide_False; [done|]. intros [?|?]%elem_of_cons; congruence.
Qed.

(** X14. A tracker fresh from [NewIP404Tracker] whitelists exactly the
    hardcoded identifiers, has no stored offense and no ban: [IsBanned]
    answers [false] for everybody and [GetBannedIPs] is empty. The first 404
    of a client that is not whitelisted is stored alone; it is answered
    [true], and writes the ban record [now + banDuration], exactly when the
    threshold is zero or negative, and changes nothing else. So after it
    [IsBanned] answers [true] for the client exactly when the threshold is
    zero or negative and the time asked about is before [now + banDuration]
    (never, when the ban duration is zero or negative). *)
Theorem NewIP404Tracker_starts_clean (threshold0 window0 banDuration0 : Z) :
  let t := NewIP404Tracker threshold0 window0 banDuration0 in
  (∀ ip, fst (IsWhitelisted ip t) = true ↔ ip ∈ hardcodedWhitelist)
  ∧ (∀ ip now, fst (IsBanned ip now t) = false)
  ∧ (∀ now, fst (GetBannedIPs now t) = ∅)
  ∧ (∀ ip, offenses t ip = [])
  ∧ (∀ ip now, ip ∉ hardcodedWhitelist →
       let banned := bool_decide (threshold0 ≤ 0) in
       let t' := snd (Record404 ip now t) in
       Record404 ip now t
       = (banned,
          set_bannedUntil
            (λ b, if banned then <[ip := now + banDuration0]> b else b)
            (set_counts (<[ip := [now]]>) t))
       ∧ offenses t' ip = [now]
       ∧ (∀ later, fst (IsBanned ip later t') = true
                   ↔ threshold0 ≤ 0 ∧ later < now + banDuration0)).
Proof.
  intros t.
  assert (∀ ip, fst (IsWhitelisted ip t) = true ↔ ip ∈ hardcodedWhitelist) as Hwl.
  { intros ip. unfold IsWhitelisted, gets, t, NewIP404Tracker, initializeWhitelist, modify.
    cbn [fst snd whitelist set_whitelist]. rewrite whitelist_seed_lookup.
    case_decide; [done|]. rewrite lookup_empty. cbn. split; [done|tauto]. }
  assert (∀ ip now, activeBan (bannedUntil t) ip now = false) as Hnoban.
  { intros ip now. unfold activeBan. cbn. by rewrite lookup_empty. }
  split; [done|]. split; [|split; [|split]].
  - intros ip now. destruct (fst (IsWhitelisted ip t)) eqn:E.
    + by rewrite IsBanned_whitelisted.
    + by rewrite IsBanned_not_whitelisted.
  - intros now. apply map_eq. intros ip. apply option_eq. intros e.
    rewrite GetBannedIPs_lookup. cbn. rewrite !lookup_empty.
    split; [by intros [? _]|done].
  - intros ip. unfold offenses. cbn. by rewrite lookup_empty.
  - intros ip now Hnot banned t'.
    assert (fst (IsWhitelisted ip t) = false) as E.
    { destruct (fst (IsWhitelisted ip t)) eqn:E; [|done]. by apply Hwl in E. }
    assert (Record404 ip now t
      = (banned,
         set_bannedUntil
           (λ b, if banned then <[ip := now + banDuration0]> b else b)
           (set_counts (<[ip := [now]]>) t))) as Hrun.
    { rewrite (Record404_records t ip now E (Hnoban ip now)). cbv zeta.
      assert (recentAt t ip now = [now]) as ->.
      { unfold recentAt, offenses. cbn. by rewrite lookup_empty. }
      change (threshold t) with threshold0. cbn [length]. subst banned.
      destruct (decide (threshold0 ≤ 0)).
      - by rewrite !bool_decide_eq_true_2 by lia.
      - by rewrite !bool_decide_eq_false_2 by lia. }
    split; [done|]. subst t'. rewrite Hrun. cbn [snd]. split.
    + unfold offenses. cbn. by rewrite lookup_insert_eq.
    + intros later. rewrite IsBanned_not_whitelisted by done. cbn [fst].
      unfold activeBan. cbn [bannedUntil set_bannedUntil set_counts].
      subst banned. case_bool_decide.
      * rewrite lookup_insert_eq, After_true. tauto.
      * change (bannedUntil t) with (∅ : gmap string Z).
        rewrite lookup_empty. split; [done|tauto].
Qed.

Lemma NewIP404Tracker_starts_clean_witness :
  ("10.0.0.1"%string ∉ hardcodedWhitelist) ∧
  fst (Record404 "10.0.0.1" 5 (NewIP404Tracker 0 60 86400)) = true ∧
  bannedUntil (snd (Record404 "10.0.0.1" 5 (NewIP404Tracker 0 60 86400)))
    !! "10.0.0.1"%string = Some 86405 ∧
  fst (IsBanned "10.0.0.1" 86404
         (snd (Record404 "10.0.0.1" 5 (NewIP404Tracker 0 60 86400)))) = true ∧
  Record404 "10.0.0.1" 5 (NewIP404Tracker 1 60 86400)
  = (false, set_counts (<["10.0.0.1"%string := [5]]>) (NewIP404Tracker 1 60 86400)).
Proof.
  assert (("10.0.0.1"%string) ∉ hardcodedWhitelist) as Hnot.
  { intros [H|H]%elem_of_cons; [discriminate|by apply elem_of_nil in H]. }
  destruct (NewIP404Tracker_starts_clean 0 60 86400) as (_ & _ & _ & _ & H0).
  destruct (NewIP404Tracker_starts_clean 1 60 86400) as (_ & _ & _ & _ & H1).
  destruct (H0 "10.0.0.1"%string 5 Hnot) as (Hrun0 & _ & Hbanned0).
  destruct (H1 "10.0.0.1"%string 5 Hnot) as (Hrun1 & _).
  refine (conj Hnot (conj (f_equal fst Hrun0)
            (conj (f_equal (λ r, bannedUntil (snd r) !! "10.0.0.1"%string) Hrun0)
              (conj _ Hrun1)))).
  apply Hbanned0. split; [reflexivity|]. cbn. lia.
Defined.

(** ** Histories whose calls take effect in the order of their readings *)

Lemma StronglySorted_filter_window (cutoff : Z) (l : list Z) :
  StronglySorted Z.le l → StronglySorted Z.le (filter (λ ts, cutoff < ts) l).
Proof.
  induction 1 as [|x l Hl IH Hx]; [constructor|].
  destruct (decide (cutoff < x)).
  - rewrite filter_cons_True by done. constructor; [done|].
    apply Forall_forall. intros y [_ Hy]%list_elem_of_filter.
    by apply (proj1 (Forall_forall _ _) Hx).
  - by rewrite filter_cons_False by done.
Qed.

Lemma chronological_later (now now' : Z) (t : IP404Tracker) :
  now ≤ now' → chronological now t → chronological now' t.
Proof.
  intros Hle [Hc Hb]. split.
  - intros ip l Hl. destruct (Hc ip l Hl) as [Hs Hf]. split; [done|].
    eapply Forall_impl; [exact Hf|]. intros ts. cbn. lia.
  - intros ip e He. specialize (Hb ip e He). lia.
Qed.

Lemma chronological_Record404 (now at_ : Z) (ip : string) (t : IP404Tracker) :
  now ≤ at_ → chronological now t →
  chronological at_ (snd (Record404 ip at_ t)).
Proof.
  intros Hle Hch.
  pose proof (chronological_later now at_ t Hle Hch) as [Hc Hb].
  assert (StronglySorted Z.le (recentAt t ip at_)
          ∧ Forall (λ ts, ts ≤ at_) (recentAt t ip at_)) as [Hs Hf].
  { unfold recentAt, offenses.
    assert (StronglySorted Z.le (default [] (counts t !! ip))
            ∧ Forall (λ ts, ts ≤ at_) (default [] (counts t !! ip))) as [Hs0 Hf0].
    { destruct (counts t !! ip) as [l|] eqn:E; cbn.
      - exact (Hc ip l E).
      - split; constructor. }
    assert (Forall (λ ts, ts ≤ at_)
              (filter (λ ts, windowStart t at_ < ts) (default [] (counts t !! ip))))
      as Hff.
    { apply Forall_forall. intros y [_ Hy]%list_elem_of_filter.
      by apply (proj1 (Forall_forall _ _) Hf0). }
    split.
    - apply StronglySorted_app_2.
      + intros x1 x2 Hx1 ->%list_elem_of_singleton.
        by apply (proj1 (Forall_forall _ _) Hff).
      + by apply StronglySorted_filter_window.
      + repeat constructor.
    - apply Forall_app. split; [done|]. apply Forall_singleton. lia. }
  assert (∀ k l, <[ip := recentAt t ip at_]> (counts t) !! k = Some l →
            StronglySorted Z.le l ∧ Forall (λ ts, ts ≤ at_) l) as Hc'.
  { intros k l. destruct (decide (ip = k)) as [->|Hne].
    - rewrite lookup_insert_eq. by intros [= <-].
    - rewrite lookup_insert_ne by done. apply Hc. }
  destruct (Record404_cases t ip at_) as [H|[H|[H|H]]]; rewrite H; cbn [snd];
    try done.
  split; [done|]. intros k e. cbn [bannedUntil set_bannedUntil set_counts banDuration].
  destruct (decide (ip = k)) as [->|Hne].
  - rewrite lookup_insert_eq. intros [= <-]. lia.
  - rewrite lookup_insert_ne by done. apply Hb.
Qed.

Lemma chronological_ExtendBan (now at_ : Z) (ip : string) (t : IP404Tracker) :
  now ≤ at_ → chronological now t →
  chronological at_ (snd (ExtendBan ip at_ t)).
Proof.
  intros Hle Hch.
  pose proof (chronological_later now at_ t Hle Hch) as [Hc Hb].
  destruct (ExtendBan_cases t ip at_) as [H|H]; rewrite H; [done|].
  split; [done|]. intros k e. cbn [bannedUntil set_bannedUntil banDuration].
  destruct (decide (ip = k)) as [->|Hne].
  - rewrite lookup_insert_eq. intros [= <-]. lia.
  - rewrite lookup_insert_ne by done. apply Hb.
Qed.

Lemma chronological_cleanup (now at_ : Z) (t : IP404Tracker) :
  chronological now t → chronological now (snd (cleanup at_ t)).
Proof.
  intros [Hc Hb]. destruct (cleanup_frame t at_) as (_ & _ & _ & _ & Ebd).
  cbv zeta in Ebd. split.
  - intros ip l. rewrite cleanup_counts_lookup.
    destruct (counts t !! ip) as [l0|] eqn:E; [|done]. cbn.
    case_decide; [done|]. intros [= <-]. destruct (Hc ip l0 E) as [Hs Hf].
    split; [by apply StronglySorted_filter_window|].
    apply Forall_forall. intros y [_ Hy]%list_elem_of_filter.
    by apply (proj1 (Forall_forall _ _) Hf).
  - intros ip e [He _]%cleanup_bans_Some. rewrite Ebd. by apply (Hb ip).
Qed.

Lemma chronological_step (now : Z) (call : Call) (t : IP404Tracker) :
  notBefore now call = true →
  chronological now t →
  chronological (latest now call) (exec call t).
Proof.
  intros Hlate Hch.
  destruct call as [ip|ip|ip| |ip at_|ip at_|ip|at_|ip|ip at_|at_|r ip clk|r ip clk];
    cbn [notBefore] in Hlate;
    rewrite ?andb_true_iff, ?bool_decide_eq_true in Hlate; cbn [latest];
    rewrite ?Z.max_r by lia.
  - by destruct Hch.
  - by destruct Hch.
  - done.
  - done.
  - by apply (chronological_Record404 now).
  - cbn [exec]. rewrite IsBanned_state. by apply (chronological_later now).
  - destruct Hch as [Hc Hb]. split; [done|].
    intros k e. cbn. rewrite lookup_delete_Some. intros [_ He]. by apply (Hb k).
  - by apply (chronological_later now).
  - by destruct Hch.
  - by apply (chronological_ExtendBan now).
  - apply (chronological_later now); [done|]. by apply chronological_cleanup.
  - destruct Hlate as [[Hc He] Hr]. rewrite exec_request.
    destruct (fst (IsBanned ip (atCheck clk) t)).
    + cbn [execAll foldl exec].
      apply (chronological_later (atExtend clk)); [lia|].
      destruct (chronological_ExtendBan now (atExtend clk) ip t He Hch) as [? ?].
      done.
    + case_decide.
      * apply (chronological_later (atRecord clk)); [lia|].
        by apply (chronological_Record404 now).
      * apply (chronological_later now); [lia|done].
  - destruct Hlate as [[Hc He] Hr]. rewrite exec_request0.
    destruct (fst (IsBanned ip (atCheck clk) t)).
    + apply (chronological_later now); [lia|done].
    + case_decide.
      * apply (chronological_later (atRecord clk)); [lia|].
        by apply (chronological_Record404 now).
      * apply (chronological_later now); [lia|done].
Qed.

Lemma chronological_history (now : Z) (calls : list Call) (t : IP404Tracker) :
  readingsInCallOrder now calls = true →
  chronological now t →
  chronological (foldl latest now calls) (execAll calls t).
Proof.
  revert now t. induction calls as [|call rest IH]; intros now t Hclk Hch; [done|].
  cbn [readingsInCallOrder] in Hclk. apply andb_true_iff in Hclk as [Hcall Hrest].
  cbn [foldl execAll]. fold (execAll rest (exec call t)).
  apply IH; [done|]. by apply chronological_step.
Qed.

(** X15. When the calls of a history since [NewIP404Tracker] take effect in
    the order of their clock readings, every identifier's offense window is
    in order of time (oldest first) and holds no stamp later than the latest
    reading, and no ban record reaches further than one ban duration past
    that reading. *)
Theorem history_is_chronological
    (start : Z) (calls : list Call) (threshold0 window0 banDuration0 : Z) :
  readingsInCallOrder start calls = true →
  let t := execAll calls (NewIP404Tracker threshold0 window0 banDuration0) in
  let now := foldl latest start calls in
  (∀ ip, StronglySorted Z.le (offenses t ip)
         ∧ Forall (λ ts, ts ≤ now) (offenses t ip))
  ∧ (∀ ip expiry, bannedUntil t !! ip = Some expiry →
       expiry ≤ now + banDuration0).
Proof.
  intros Hclk t now.
  destruct (chronological_history start calls
              (NewIP404Tracker threshold0 window0 banDuration0) Hclk) as [Hc Hb].
  { split; intros ip x; cbn; by rewrite lookup_empty. }
  destruct (execAll_keeps calls _
              (NewIP404Tracker_wellFormed threshold0 window0 banDuration0))
    as (_ & _ & _ & Ebd).
  fold t in Hc, Hb, Ebd. fold now in Hc, Hb. split.
  - intros ip. unfold offenses. destruct (counts t !! ip) as [l|] eqn:E; cbn.
    + exact (Hc ip l E).
    + split; constructor.
  - intros ip e He. specialize (Hb ip e He). by rewrite Ebd in Hb.
Qed.

Lemma history_is_chronological_witness :
  let calls := [CallRecord404 "10.0.0.1" 0; CallRecord404 "10.0.0.1" 30;
                CallCleanup 61; CallRecord404 "10.0.0.1" 62;
                CallRequest (mkContext 404 false) "10.0.0.1" (mkClock 63 63 64)] in
  let t := execAll calls (NewIP404Tracker 3 60 86400) in
  readingsInCallOrder 0 calls = true ∧
  offenses t "10.0.0.1" = [30; 62; 64] ∧
  StronglySorted Z.le (offenses t "10.0.0.1") ∧
  Forall (λ ts, ts ≤ 64) (offenses t "10.0.0.1").
Proof.
  intros calls t.
  destruct (history_is_chronological 0 calls 3 60 86400 eq_refl) as [Hoff _].
  exact (conj eq_refl (conj eq_refl (Hoff "10.0.0.1"%string))).
Defined.

(** The condition is a real one. Two offenses that run at the same time may
    take the lock in the order opposite to their readings of the clock, and
    the window is then out of order. *)
Example Record404_out_of_order :
  let calls := [CallRecord404 "10.0.0.1" 2; CallRecord404 "10.0.0.1" 1] in
  readingsInCallOrder 0 calls = false
  ∧ offenses (execAll calls (NewIP404Tracker 3 60 86400)) "10.0.0.1" = [2; 1].
Proof. split; reflexivity. Qed.
